(** * find_inconsistencies.py: counting ranking inconsistencies

    A shallow embedding of [src/find_inconsistencies.py] (Python 2) and the
    properties of its scorer, of its row pairing, of its summary statistics
    and of its command line.

    Python integers are unbounded, so they are [Z].  A CSV field is a
    [string].  Exceptions are values of [exn]; code that may raise lives in
    the error monad [result]. *)

From Stdlib Require Import ZArith List String Ascii Bool Lia.
From Stdlib Require Import Permutation Sorted DecimalString DecimalPos.
From Stdlib Require Import SpecFloat.
Import ListNotations.

Open Scope string_scope.
Open Scope list_scope.
Open Scope Z_scope.

(** ** Exceptions and the error monad *)

Inductive exn : Type :=
| ValueError (literal : string)   (* int() on text that is no integer *)
| IndexError                      (* list index out of range *)
| ZeroDivisionError               (* float division by zero *)
| OverflowError                   (* integer too large for a float *)
| CsvError (msg : string)         (* csv.Error raised by a reader *)
| IOError (filename : string)     (* open() on a file that is not there *)
| SystemExit (msg : string).      (* sys.exit(msg) *)

Definition result (A : Type) : Type := (exn + A)%type.

Definition ret {A : Type} (a : A) : result A := inr a.

Definition raise {A : Type} (e : exn) : result A := inl e.

Definition bind {A B : Type} (m : result A) (k : A -> result B) : result B :=
  match m with
  | inl e => inl e
  | inr a => k a
  end.

Notation "x <- m ;; k" := (bind m (fun x => k))
  (at level 61, m at next level, right associativity).

(** ** The builtins the program calls *)

Module Py.

(** [cmp(x, y)]: negative, zero or positive as [x] is below, equal to or
    above [y]. *)
Definition cmp (x y : Z) : Z :=
  if x <? y then -1 else if x =? y then 0 else 1.

(** [map(f, row)] for an [f] that may raise: left to right, the first
    exception wins. *)
Fixpoint map {A B : Type} (f : A -> result B) (l : list A) : result (list B) :=
  match l with
  | [] => ret []
  | a :: l' => b <- f a ;; bs <- map f l' ;; ret (b :: bs)
  end.

(** [reduce(f, iterable, init)], a left fold, for an [f] that may raise. *)
Fixpoint reduce {A B : Type} (f : A -> B -> result A) (l : list B) (init : A)
  : result A :=
  match l with
  | [] => ret init
  | b :: l' => a <- f init b ;; reduce f l' a
  end.

(** [enumerate(l)]: the items of [l] paired with their positions. *)
Fixpoint enumerate_from {A : Type} (i : nat) (l : list A) : list (nat * A) :=
  match l with
  | [] => []
  | a :: l' => (i, a) :: enumerate_from (S i) l'
  end.

Definition enumerate {A : Type} (l : list A) : list (nat * A) :=
  enumerate_from 0 l.

(** [l[i]] for a position [i >= 0]. *)
Definition getitem {A : Type} (l : list A) (i : nat) : result A :=
  match nth_error l i with
  | Some a => ret a
  | None => raise IndexError
  end.

(** [sorted(iterable, cmp)].  Python's sort is stable and decides every
    question "does [y] go before [x]" by [cmp(y, x) < 0], asked with the
    later item first.  Insertion from the right end is the simplest sort of
    that kind: an item moves behind the items that are strictly before it and
    behind no other.  Any stable sort returns the same list: [order_unique]
    below shows that the order the program relies on has one solution. *)
Section Sorted.
Context {A : Type} (cmpf : A -> A -> Z).

Fixpoint insert (x : A) (l : list A) : list A :=
  match l with
  | [] => [x]
  | y :: l' => if cmpf y x <? 0 then y :: insert x l' else x :: y :: l'
  end.

Fixpoint sorted (l : list A) : list A :=
  match l with
  | [] => []
  | x :: l' => insert x (sorted l')
  end.
End Sorted.

(** [int(s)] on a CSV field, in base 10: blanks, an optional sign, blanks,
    decimal digits, blanks (Python 2 accepts blanks after the sign); anything
    else is a [ValueError]. *)
Definition isspace (c : ascii) : bool :=
  match nat_of_ascii c with
  | 9%nat | 10%nat | 11%nat | 12%nat | 13%nat | 32%nat => true
  | _ => false
  end.

Fixpoint lstrip (s : list ascii) : list ascii :=
  match s with
  | c :: s' => if isspace c then lstrip s' else s
  | [] => []
  end.

Definition digit (c : ascii) : option Z :=
  let n := nat_of_ascii c in
  if andb (48 <=? n)%nat (n <=? 57)%nat then Some (Z.of_nat (n - 48)) else None.

(** The digits at the head of [s], folded into [acc]; returns the value, how
    many digits were read and the rest. *)
Fixpoint digits (s : list ascii) (acc : Z) (count : nat)
  : Z * nat * list ascii :=
  match s with
  | c :: s' =>
      match digit c with
      | Some d => digits s' (10 * acc + d) (S count)
      | None => (acc, count, s)
      end
  | [] => (acc, count, [])
  end.

Definition int (s : string) : result Z :=
  let body := lstrip (list_ascii_of_string s) in
  let '(negative, body) :=
    match body with
    | "-"%char :: b => (true, b)
    | "+"%char :: b => (false, b)
    | _ => (false, body)
    end in
  let '(value, count, rest) := digits (lstrip body) 0 0 in
  match count, lstrip rest with
  | S _, [] => ret (if negative then - value else value)
  | _, _ => raise (ValueError s)
  end.

(** [str(n)] and the [%d] conversion of an integer. *)
Definition str (n : Z) : string := NilZero.string_of_int (Z.to_int n).

(** [tuple(iterator)] over an iterator whose items are computed on demand:
    the items are forced in order and the first exception ends it. *)
Definition tuple {A : Type} (iterator : list (result A)) : result (list A) :=
  map (fun item => item) iterator.

Definition sum (l : list Z) : Z := fold_left Z.add l 0.

(** Floats are IEEE 754 binary64 numbers: [spec_float] with 53 bits of
    precision and exponents up to 1024. *)
Definition float_of_int (n : Z) : result spec_float :=
  match binary_normalize 53 1024 n 0 false with
  | S754_infinity _ => raise OverflowError
  | x => ret x
  end.

(** [a / b] for an integer [a] and a float [b]: [a] is converted, then
    a zero divisor is refused, then the division is rounded to nearest. *)
Definition div_int_float (a : Z) (b : spec_float) : result spec_float :=
  x <- float_of_int a ;;
  match b with
  | S754_zero _ => raise ZeroDivisionError
  | _ => ret (SFdiv 53 1024 x b)
  end.

(** [int(x)] for a float: the fraction is cut off, towards zero. *)
Definition int_of_float (x : spec_float) : result Z :=
  match x with
  | S754_zero _ => ret 0
  | S754_finite s m e =>
      let magnitude :=
        match e with
        | Zneg k => Z.shiftr (Zpos m) (Zpos k)
        | _ => Z.shiftl (Zpos m) e
        end in
      ret (if s then - magnitude else magnitude)
  | S754_infinity _ => raise OverflowError
  | S754_nan => raise (ValueError "nan")
  end.

(** ["%d" % x] for a float [x]: [x] goes through [int] first. *)
Definition format_d_float (x : spec_float) : result string :=
  n <- int_of_float x ;; ret (str n).

(** [Counter(l)]: the distinct items of [l] with their numbers of
    occurrences, here in order of first occurrence. *)
Fixpoint count_up (x : Z) (c : list (Z * nat)) : list (Z * nat) :=
  match c with
  | [] => [(x, 1%nat)]
  | (y, n) :: c' => if x =? y then (y, S n) :: c' else (y, n) :: count_up x c'
  end.

Definition Counter (l : list Z) : list (Z * nat) :=
  fold_left (fun c x => count_up x c) l [].

(** [max(items, key=itemgetter(1))]: the first item, in the order given,
    whose count no other item exceeds. *)
Fixpoint max_by_count (best : Z * nat) (items : list (Z * nat)) : Z * nat :=
  match items with
  | [] => best
  | item :: items' =>
      max_by_count (if (snd best <? snd item)%nat then item else best) items'
  end.

(** [counter.most_common(1)]: [heapq.nlargest(1, counter.iteritems(),
    key=itemgetter(1))], which is [max] over the items when there is one and
    the empty list otherwise.  [iteritems] is the order in which the
    dictionary yields its items. *)
Definition most_common_1 (iteritems : list (Z * nat)) : list (Z * nat) :=
  match iteritems with
  | [] => []
  | item :: items => [max_by_count item items]
  end.

End Py.

(** ** The program *)

(** [pairwise]: s -> (s0,s1), (s1,s2), (s2,s3), ...  The second copy of the
    iterator is advanced once and the two are zipped. *)
Definition pairwise {A : Type} (iterable : list A) : list (A * A) :=
  combine iterable (tl iterable).

Definition signum (x : Z) : Z :=
  if 0 <? x then 1 else if x <? 0 then -1 else 0.

(** The inner [score] of [score_subject]; [cat_rankings] is the variable it
    closes over. *)
Definition score (cat_rankings : list Z)
  (ranking_pair : (nat * Z) * (nat * Z)) : result Z :=
  let r1 := fst ranking_pair in
  let r2 := snd ranking_pair in
  c1 <- Py.getitem cat_rankings (fst r1) ;;
  c2 <- Py.getitem cat_rankings (fst r2) ;;
  ret (Z.max 0 (signum (Py.cmp c1 c2))).

Definition score_subject (cat_row num_row : list string) : result Z :=
  cat_rankings <- Py.map Py.int cat_row ;;
  nums <- Py.map Py.int num_row ;;
  let num_rankings :=
    Py.sorted (fun x y => Py.cmp (snd y) (snd x)) (Py.enumerate nums) in
  Py.reduce (fun x y => s <- score cat_rankings y ;; ret (x + s))
    (pairwise num_rankings) 0.

(** ** The CSV files *)

(** What a [csv.reader] yields next: a row, taken from [lines] more lines
    of the file (a quoted field can span lines), or [csv.Error] on a record
    it cannot parse, raised after [lines] more lines were read. *)
Inductive record : Type :=
| Row (fields : list string) (lines : nat)
| Malformed (msg : string) (lines : nat).

(** The files that exist, by name, each as the records a reader yields
    from it. *)
Definition files : Type := string -> option (list record).

Definition open (fs : files) (filename : string) : result (list record) :=
  match fs filename with
  | Some records => ret records
  | None => raise (IOError filename)
  end.

(** [zip(cat_reader, num_reader)], the Python 2 builtin: it builds the whole
    list, asking the first reader and then the second one for an item, and
    stops when either has no more.  [cat_line_num] is [cat_reader.line_num];
    an exception comes with the value it has when the exception is raised. *)
Fixpoint zip (cat_reader : list record) (cat_line_num : nat)
  (num_reader : list record)
  : (exn * nat) + list (list string * list string) :=
  match cat_reader with
  | [] => inr []
  | Malformed msg lines :: _ => inl (CsvError msg, (cat_line_num + lines)%nat)
  | Row cat_row lines :: cat_reader' =>
      let cat_line_num' := (cat_line_num + lines)%nat in
      match num_reader with
      | [] => inr []
      | Malformed msg _ :: _ => inl (CsvError msg, cat_line_num')
      | Row num_row _ :: num_reader' =>
          match zip cat_reader' cat_line_num' num_reader' with
          | inl e => inl e
          | inr rows => inr ((cat_row, num_row) :: rows)
          end
      end
  end.

(** [find_inconsistencies] returns the [starmap] iterator: one count per
    pair of rows, each computed when the iterator is advanced, so that an
    exception of [score_subject] is raised to whoever consumes it. *)
Definition find_inconsistencies (fs : files)
  (cat_csv_filename num_csv_filename : string) : result (list (result Z)) :=
  cat_reader <- open fs cat_csv_filename ;;
  num_reader <- open fs num_csv_filename ;;
  match zip cat_reader 0 num_reader with
  | inr rows => ret (List.map (fun rows => score_subject (fst rows) (snd rows)) rows)
  | inl (CsvError e, line_num) =>
      raise (SystemExit ("file " ++ cat_csv_filename ++ ", line "
                         ++ Py.str (Z.of_nat line_num) ++ ": " ++ e)%string)
  | inl (e, _) => raise e
  end.

(** ** Reporting *)

Definition DEFAULT_FILENAME : string := "inconsistencies.csv".

(** What a run leaves behind: the lines printed to standard output and the
    files written, each with the rows given to its [csv.writer]. *)
Record effects : Type := {
  stdout : list string;
  written : list (string * list (list string))
}.

Definition no_effects : effects := {| stdout := []; written := [] |}.

Definition print (line : string) (w : effects) : effects :=
  {| stdout := stdout w ++ [line]; written := written w |}.

Definition writerows (filename : string) (rows : list (list string))
  (w : effects) : effects :=
  {| stdout := stdout w; written := written w ++ [(filename, rows)] |}.

Section Program.

(** The order in which a dictionary of counts yields its items.  Python 2
    leaves it to the hash table. *)
Variable iteritems : list (Z * nat) -> list (Z * nat).

(** The statistics of [report_inconsistencies]: [avg] and [mode]. *)
Definition average (inconsistencies : list Z) : result spec_float :=
  n <- Py.float_of_int (Z.of_nat (List.length inconsistencies)) ;;
  Py.div_int_float (Py.sum inconsistencies) n.

Definition most_common (inconsistencies : list Z) : result Z :=
  first <- Py.getitem (Py.most_common_1 (iteritems (Py.Counter inconsistencies))) 0 ;;
  ret (fst first).

Definition report_inconsistencies (fs : files)
  (cat_csv_filename num_csv_filename out_csv_filename : string)
  (w : effects) : effects * result unit :=
  match
    iterator <- find_inconsistencies fs cat_csv_filename num_csv_filename ;;
    inconsistencies <- Py.tuple iterator ;;
    avg <- average inconsistencies ;;
    mode <- most_common inconsistencies ;;
    line1 <- Py.format_d_float avg ;;
    ret (inconsistencies, line1, mode)
  with
  | inl e => (w, inl e)
  | inr (inconsistencies, line1, mode) =>
      let w := print ("Average # of inconsistencies: " ++ line1)%string w in
      let w := print ("Most common # of inconsistencies: " ++ Py.str mode)%string w in
      (writerows out_csv_filename
         (List.map (fun x => [Py.str x]) inconsistencies) w, ret tt)
  end.

(** The script: [argv] is [sys.argv], the script's name first. *)
Definition main (fs : files) (argv : list string) : effects * result unit :=
  if (2 <? List.length argv)%nat then
    let ranking1 := nth 1 argv "" in
    let ranking2 := nth 2 argv "" in
    if (List.length argv =? 4)%nat then
      report_inconsistencies fs ranking1 ranking2 (nth 3 argv "") no_effects
    else
      report_inconsistencies fs ranking1 ranking2 DEFAULT_FILENAME no_effects
  else
    (print "Usage: %s <ranking 1 csv file> <ranking 2 csv file> [output file]"
       no_effects, ret tt).

End Program.

(** How the interpreter ends the process. *)
Inductive termination : Type :=
| Finished                     (* end of the script: status 0 *)
| Exited (msg : string)        (* SystemExit: the message on stderr, status 1 *)
| Traceback (e : exn).         (* any other exception: traceback, status 1 *)

Definition terminate (r : result unit) : termination :=
  match r with
  | inr _ => Finished
  | inl (SystemExit msg) => Exited msg
  | inl e => Traceback e
  end.

Definition exit_status (t : termination) : Z :=
  match t with
  | Finished => 0
  | _ => 1
  end.

(** ** The vocabulary of the specification *)

(** Item [a] goes before item [b] when the items are sorted by descending
    numerical value and items of equal value keep their original order. *)
Definition before (num : list Z) (a b : nat) : Prop :=
  nth a num 0 > nth b num 0 \/ (nth a num 0 = nth b num 0 /\ (a < b)%nat).

(** [order] lists the item indices [0..N-1] stably sorted by descending
    numerical value. *)
Definition stable_descending_order (num : list Z) (order : list nat) : Prop :=
  Permutation order (seq 0 (List.length num)) /\
  StronglySorted (before num) order.

(** The sum, over the consecutive pairs [(item_a, item_b)] of [order], of 1
    when [categorical[item_a] > categorical[item_b]] and 0 otherwise. *)
Definition disagreement (cat : list Z) (pair : nat * nat) : Z :=
  if nth (fst pair) cat 0 >? nth (snd pair) cat 0 then 1 else 0.

Definition disagreements (cat : list Z) (order : list nat) : Z :=
  fold_right Z.add 0 (List.map (disagreement cat) (pairwise order)).

(** The comparison [score_subject] hands to [sorted], and the order it
    induces on the enumerated items. *)
Definition by_descending_value (x y : nat * Z) : Z := Py.cmp (snd y) (snd x).

Definition ahead (x y : nat * Z) : Prop :=
  snd x > snd y \/ (snd x = snd y /\ (fst x < fst y)%nat).

(** The indices of the sorted enumeration: what [score] reads through
    [r1[0]] and [r2[0]]. *)
Definition ranked (num : list Z) : list nat :=
  List.map fst (Py.sorted by_descending_value (Py.enumerate num)).

(** A reader that yields the given rows, each with its number of lines, and
    never raises. *)
Definition rows_reader (rows : list (list string * nat)) : list record :=
  List.map (fun r => Row (fst r) (snd r)) rows.

(** The lines a reader has consumed after the given rows. *)
Definition lines_of (rows : list (list string * nat)) : nat :=
  fold_right (fun r n => (snd r + n)%nat) 0%nat rows.

(** Two rows that [score_subject] accepts: integers, as many in each. *)
Definition integer_rows (cat_row num_row : list string) : Prop :=
  exists cat num : list Z,
    Py.map Py.int cat_row = inr cat /\
    Py.map Py.int num_row = inr num /\
    List.length cat = List.length num.

(** The number of fields in all the rows together. *)
Definition fields_total (rows : list (list string * nat)) : nat :=
  list_sum (List.map (fun r => List.length (fst r)) rows).

(** ** Files for the examples *)

Definition example_files : files :=
  fun filename =>
    if String.eqb filename "cat.csv" then
      Some [Row ["3"; "2"; "1"] 1; Row ["1"; "2"; "3"] 1; Row ["1"; "2"; "3"] 1;
            Row ["1"; "2"] 1; Row ["1"] 1]
    else if String.eqb filename "num.csv" then
      Some [Row ["10"; "20"; "30"] 1; Row ["10"; "20"; "30"] 1;
            Row ["10"; "20"; "30"] 1; Row ["1"; "2"] 1]
    else None.

Definition bad_field_files : files :=
  fun filename =>
    if String.eqb filename "cat.csv" then
      Some [Row ["1"; "2"] 1; Row ["1"; "x"] 1]
    else if String.eqb filename "num.csv" then
      Some [Row ["10"; "20"] 1; Row ["10"; "20"] 1]
    else None.

Definition malformed_cat_files : files :=
  fun filename =>
    if String.eqb filename "cat.csv" then
      Some [Row ["1"; "2"] 1; Malformed "line contains NULL byte" 1;
            Row ["2"; "1"] 1]
    else if String.eqb filename "num.csv" then
      Some [Row ["10"; "20"] 1; Row ["10"; "20"] 1; Row ["10"; "20"] 1]
    else None.

Definition malformed_num_files : files :=
  fun filename =>
    if String.eqb filename "cat.csv" then
      Some [Row ["1"; "2"] 1; Row ["1"; "2"] 1]
    else if String.eqb filename "num.csv" then
      Some [Malformed "line contains NULL byte" 1; Row ["10"; "20"] 1]
    else None.

(** [k] is the float [x] with its fraction cut off: [k] has the sign of [x]
    and |k| <= |x| < |k| + 1, the value of a finite float being
    (-1)^s * m * 2^e. *)
Definition truncation_of (x : spec_float) (k : Z) : Prop :=
  match x with
  | S754_zero _ => k = 0
  | S754_finite s m e =>
      exists j : Z,
        k = (if s then - j else j) /\ 0 <= j /\
        j * 2 ^ Z.max 0 (- e) <= Zpos m * 2 ^ Z.max 0 e
        < (j + 1) * 2 ^ Z.max 0 (- e)
  | _ => False
  end.

Definition empty_files : files :=
  fun filename =>
    if String.eqb filename "cat.csv" then Some []
    else if String.eqb filename "num.csv" then Some []
    else None.

(** ** The program on examples *)

Example score_subject_reversed :
  score_subject ["1"; "2"; "3"] ["10"; "20"; "30"] = inr 2.
Proof. reflexivity. Qed.

Example score_subject_same_order :
  score_subject ["3"; "2"; "1"] ["10"; "20"; "30"] = inr 0.
Proof. reflexivity. Qed.

Example score_subject_ties :
  score_subject ["2"; "1"; "1"; "3"] [" 5"; "5 "; "-7"; "+5"] = inr 2.
Proof. reflexivity. Qed.

Example score_subject_bad_field :
  score_subject ["1"; "x"] ["10"; "20"] = inl (ValueError "x").
Proof. reflexivity. Qed.

Example score_subject_short_cat :
  score_subject ["1"] ["10"; "20"] = inl IndexError.
Proof. reflexivity. Qed.

Example run_on_example_files :
  main (fun items => items) example_files
    ["find_inconsistencies.py"; "cat.csv"; "num.csv"]
  = ({| stdout := ["Average # of inconsistencies: 1";
                   "Most common # of inconsistencies: 2"];
        written := [("inconsistencies.csv", [["0"]; ["2"]; ["2"]; ["1"]])] |},
     inr tt).
Proof. vm_compute. reflexivity. Qed.

Example run_with_output_file :
  written (fst (main (fun items => items) example_files
                  ["find_inconsistencies.py"; "cat.csv"; "num.csv"; "out.csv"]))
  = [("out.csv", [["0"]; ["2"]; ["2"]; ["1"]])].
Proof. vm_compute. reflexivity. Qed.

(** With no subject at all there is no mean: the division raises. *)
Example run_on_empty_files :
  main (fun items => items) empty_files
    ["find_inconsistencies.py"; "cat.csv"; "num.csv"]
  = (no_effects, inl ZeroDivisionError).
Proof. vm_compute. reflexivity. Qed.

Example run_on_missing_file :
  main (fun items => items) example_files
    ["find_inconsistencies.py"; "cat.csv"; "nowhere.csv"]
  = (no_effects, inl (IOError "nowhere.csv")).
Proof. vm_compute. reflexivity. Qed.

(** The mean is a float: from 2^53 on it no longer holds every sum. *)
Example average_rounds_large_sums :
  (avg <- average [2 ^ 53 + 1] ;; Py.format_d_float avg)
  = inr "9007199254740992".
Proof. vm_compute. reflexivity. Qed.

(** ** The sort *)

Section SortedFacts.
Context {A : Type} (cmpf : A -> A -> Z).

Lemma insert_perm (x : A) (l : list A) :
  Permutation (Py.insert cmpf x l) (x :: l).
Proof.
  induction l as [|y l IH]; simpl.
  - apply Permutation_refl.
  - destruct (cmpf y x <? 0).
    + apply perm_trans with (y :: x :: l).
      * now apply perm_skip.
      * apply perm_swap.
    + apply Permutation_refl.
Qed.

Lemma sorted_perm (l : list A) : Permutation (Py.sorted cmpf l) l.
Proof.
  induction l as [|x l IH]; simpl.
  - apply perm_nil.
  - apply perm_trans with (x :: Py.sorted cmpf l).
    + apply insert_perm.
    + now apply perm_skip.
Qed.
End SortedFacts.

(** Two lists with the same items, both sorted for a strict order, are the
    same list: a sort that is stable has one possible result. *)
Section Unique.
Context {A : Type} (R : A -> A -> Prop).
Hypothesis R_irrefl : forall x, ~ R x x.
Hypothesis R_trans : forall x y z, R x y -> R y z -> R x z.

Lemma sorted_unique (l1 l2 : list A) :
  StronglySorted R l1 -> StronglySorted R l2 -> Permutation l1 l2 ->
  l1 = l2.
Proof.
  intros S1; revert l2.
  induction S1 as [|a t1 S1 IH F1]; intros l2 S2 P.
  - apply Permutation_nil in P. now subst.
  - destruct S2 as [|b t2 S2 F2].
    + apply Permutation_sym, Permutation_nil in P. discriminate.
    + assert (a = b) as ->.
      { assert (Ia : In a (b :: t2))
          by (eapply Permutation_in; [exact P | now left]).
        assert (Ib : In b (a :: t1))
          by (eapply Permutation_in;
              [apply Permutation_sym; exact P | now left]).
        destruct Ia as [E|Ia]; [now symmetry|].
        destruct Ib as [E|Ib]; [exact E|].
        rewrite Forall_forall in F1, F2.
        exfalso. apply (R_irrefl a). eauto. }
      f_equal. apply IH; [exact S2|].
      eapply Permutation_cons_inv; exact P.
Qed.
End Unique.

Lemma before_irrefl (num : list Z) (a : nat) : ~ before num a a.
Proof. unfold before. lia. Qed.

Lemma before_trans (num : list Z) (a b c : nat) :
  before num a b -> before num b c -> before num a c.
Proof. unfold before. lia. Qed.

Lemma ahead_trans (x y z : nat * Z) : ahead x y -> ahead y z -> ahead x z.
Proof. unfold ahead. lia. Qed.

Lemma cmp_neg (x y : Z) : (Py.cmp x y <? 0) = (x <? y).
Proof.
  unfold Py.cmp. destruct (x <? y); [reflexivity|].
  now destruct (x =? y).
Qed.

Lemma insert_ahead (x : nat * Z) (l : list (nat * Z)) :
  StronglySorted ahead l ->
  Forall (fun y => (fst x < fst y)%nat) l ->
  StronglySorted ahead (Py.insert by_descending_value x l).
Proof.
  induction 1 as [|y l S IH F]; intros Hx; simpl.
  - repeat constructor.
  - inversion Hx as [|? ? Hy Hl]; subst.
    unfold by_descending_value at 1. rewrite cmp_neg.
    destruct (snd x <? snd y) eqn:E.
    + apply Z.ltb_lt in E. constructor; [now apply IH|].
      eapply Permutation_Forall.
      * apply Permutation_sym, insert_perm.
      * constructor; [left; lia | exact F].
    + apply Z.ltb_ge in E.
      assert (A : ahead x y) by (unfold ahead; lia).
      constructor; [now constructor|].
      constructor; [exact A|].
      eapply Forall_impl; [|exact F].
      intros z; now apply ahead_trans.
Qed.

Lemma enumerate_from_fst {A : Type} (i : nat) (l : list A) :
  List.map fst (Py.enumerate_from i l) = seq i (List.length l).
Proof.
  revert i; induction l as [|a l IH]; intros i; simpl; [reflexivity|].
  now rewrite IH.
Qed.

Lemma enumerate_from_nth (i : nat) (l : list Z) :
  Forall (fun p => (i <= fst p)%nat /\ nth (fst p - i) l 0 = snd p)
    (Py.enumerate_from i l).
Proof.
  revert i; induction l as [|a l IH]; intros i; simpl; constructor.
  - simpl. now rewrite Nat.sub_diag.
  - eapply Forall_impl; [|apply (IH (S i))].
    intros [j v]; simpl. intros [Hj Hv]. split; [lia|].
    replace (j - i)%nat with (S (j - S i)) by lia. exact Hv.
Qed.

Lemma sorted_enumerate_from (i : nat) (l : list Z) :
  StronglySorted ahead
    (Py.sorted by_descending_value (Py.enumerate_from i l)).
Proof.
  revert i; induction l as [|a l IH]; intros i; simpl.
  - constructor.
  - apply insert_ahead; [apply IH|].
    eapply Permutation_Forall.
    + apply Permutation_sym, sorted_perm.
    + eapply Forall_impl; [|apply (enumerate_from_nth (S i) l)].
      intros [j v]; simpl. lia.
Qed.

Lemma StronglySorted_map {A B : Type} (R : A -> A -> Prop)
  (Q : B -> B -> Prop) (f : A -> B) (l : list A) (P : A -> Prop) :
  (forall x y, P x -> P y -> R x y -> Q (f x) (f y)) ->
  Forall P l -> StronglySorted R l -> StronglySorted Q (List.map f l).
Proof.
  intros H FP S. induction S as [|a l S IH F]; simpl; constructor.
  - apply IH. now inversion FP.
  - inversion FP as [|? ? Pa Pl]; subst.
    apply Forall_forall. intros b Hb. apply in_map_iff in Hb.
    destruct Hb as [x [<- Hx]].
    rewrite Forall_forall in F, Pl. apply H; auto.
Qed.

Lemma ranked_order (num : list Z) : stable_descending_order num (ranked num).
Proof.
  unfold stable_descending_order, ranked, Py.enumerate. split.
  - rewrite <- (enumerate_from_fst 0 num).
    apply Permutation_map, sorted_perm.
  - apply StronglySorted_map
      with (R := ahead) (P := fun p => nth (fst p) num 0 = snd p).
    + intros x y Hx Hy. unfold ahead, before. rewrite Hx, Hy. tauto.
    + eapply Permutation_Forall.
      * apply Permutation_sym, sorted_perm.
      * eapply Forall_impl; [|apply (enumerate_from_nth 0 num)].
        intros [j v]; simpl. rewrite Nat.sub_0_r. tauto.
    + apply sorted_enumerate_from.
Qed.

Lemma order_unique (num : list Z) (order : list nat) :
  stable_descending_order num order -> order = ranked num.
Proof.
  intros [P S]. destruct (ranked_order num) as [P' S'].
  apply (sorted_unique (before num)).
  - apply before_irrefl.
  - apply before_trans.
  - exact S.
  - exact S'.
  - apply perm_trans with (seq 0 (List.length num)); [exact P|].
    now apply Permutation_sym.
Qed.

(** ** The fold over the consecutive pairs *)

Lemma pairwise_cons {A : Type} (x y : A) (l : list A) :
  pairwise (x :: y :: l) = (x, y) :: pairwise (y :: l).
Proof. reflexivity. Qed.

Lemma pairwise_length {A : Type} (l : list A) :
  List.length (pairwise l) = (List.length l - 1)%nat.
Proof.
  unfold pairwise. rewrite length_combine.
  destruct l as [|x l]; cbn [tl List.length]; lia.
Qed.

Lemma getitem_nth (cat : list Z) (i : nat) :
  (i < List.length cat)%nat -> Py.getitem cat i = inr (nth i cat 0).
Proof.
  intros H. unfold Py.getitem. now rewrite (nth_error_nth' cat 0 H).
Qed.

Lemma max_signum_cmp (c1 c2 : Z) :
  Z.max 0 (signum (Py.cmp c1 c2)) = if c1 >? c2 then 1 else 0.
Proof.
  unfold signum, Py.cmp.
  destruct (c1 <? c2) eqn:L; [apply Z.ltb_lt in L | apply Z.ltb_ge in L].
  - replace (c1 >? c2) with false by (symmetry; rewrite Z.gtb_ltb; apply Z.ltb_ge; lia).
    reflexivity.
  - destruct (c1 =? c2) eqn:E; [apply Z.eqb_eq in E | apply Z.eqb_neq in E].
    + replace (c1 >? c2) with false by (symmetry; rewrite Z.gtb_ltb; apply Z.ltb_ge; lia).
      reflexivity.
    + replace (c1 >? c2) with true by (symmetry; rewrite Z.gtb_ltb; apply Z.ltb_lt; lia).
      reflexivity.
Qed.

Lemma score_disagreement (cat : list Z) (r1 r2 : nat * Z) :
  (fst r1 < List.length cat)%nat -> (fst r2 < List.length cat)%nat ->
  score cat (r1, r2) = inr (disagreement cat (fst r1, fst r2)).
Proof.
  intros H1 H2. unfold score; simpl.
  rewrite (getitem_nth _ _ H1), (getitem_nth _ _ H2). simpl.
  unfold ret, disagreement; simpl. now rewrite max_signum_cmp.
Qed.

Lemma reduce_score (cat : list Z) (rankings : list (nat * Z)) (init : Z) :
  Forall (fun r => (fst r < List.length cat)%nat) rankings ->
  Py.reduce (fun x y => s <- score cat y ;; ret (x + s))
    (pairwise rankings) init
  = inr (init + disagreements cat (List.map fst rankings)).
Proof.
  intros F; revert init.
  induction F as [|r1 l H1 F IH]; intros init.
  - simpl. unfold ret, disagreements. simpl. f_equal; lia.
  - destruct F as [|r2 l H2 F].
    + simpl. unfold ret, disagreements. simpl. f_equal; lia.
    + rewrite pairwise_cons. cbn [Py.reduce].
      rewrite (score_disagreement _ _ _ H1 H2). cbn [bind ret].
      rewrite IH. cbn [List.map]. unfold disagreements.
      rewrite pairwise_cons. cbn [List.map fold_right fst snd].
      f_equal; lia.
Qed.

Lemma disagreements_bounds (cat : list Z) (order : list nat) :
  0 <= disagreements cat order <= Z.of_nat (List.length order - 1).
Proof.
  rewrite <- pairwise_length. unfold disagreements.
  induction (pairwise order) as [|p l IH]; simpl List.length; simpl List.map;
    simpl fold_right; [lia|].
  assert (0 <= disagreement cat p <= 1)
    by (unfold disagreement; destruct (_ >? _); lia).
  lia.
Qed.

(** [score_subject] on two rows of integers, the second no longer than the
    first: the number of disagreements along the ranked items. *)
Lemma score_subject_ranked (cat_row num_row : list string) (cat num : list Z) :
  Py.map Py.int cat_row = inr cat ->
  Py.map Py.int num_row = inr num ->
  (List.length num <= List.length cat)%nat ->
  score_subject cat_row num_row = inr (disagreements cat (ranked num)).
Proof.
  intros Hc Hn L. unfold score_subject. rewrite Hc, Hn. cbn [bind].
  change (fun x y : nat * Z => Py.cmp (snd y) (snd x)) with by_descending_value.
  rewrite reduce_score; [reflexivity|].
  eapply Permutation_Forall; [apply Permutation_sym, sorted_perm|].
  assert (G : Forall (fun i => (i < List.length cat)%nat)
                (List.map fst (Py.enumerate num))).
  { unfold Py.enumerate. rewrite enumerate_from_fst.
    apply Forall_forall. intros i Hi. apply in_seq in Hi. lia. }
  now rewrite Forall_map in G.
Qed.

Lemma ranked_length (num : list Z) :
  List.length (ranked num) = List.length num.
Proof.
  destruct (ranked_order num) as [P _].
  apply Permutation_length in P. now rewrite length_seq in P.
Qed.

(** The count along any listing that is the stable descending order. *)
Lemma score_subject_along (cat_row num_row : list string) (cat num : list Z)
  (order : list nat) :
  Py.map Py.int cat_row = inr cat ->
  Py.map Py.int num_row = inr num ->
  List.length cat = List.length num ->
  stable_descending_order num order ->
  score_subject cat_row num_row = inr (disagreements cat order).
Proof.
  intros Hc Hn L O. apply order_unique in O. subst order.
  apply (score_subject_ranked _ _ _ _ Hc Hn). lia.
Qed.

Lemma score_subject_bounds (cat_row num_row : list string) (cat num : list Z) :
  Py.map Py.int cat_row = inr cat ->
  Py.map Py.int num_row = inr num ->
  List.length cat = List.length num ->
  exists count : Z,
    score_subject cat_row num_row = inr count /\
    0 <= count <= Z.max 0 (Z.of_nat (List.length num) - 1).
Proof.
  intros Hc Hn L. exists (disagreements cat (ranked num)). split.
  - apply (score_subject_ranked _ _ _ _ Hc Hn). lia.
  - pose proof (disagreements_bounds cat (ranked num)) as B.
    rewrite ranked_length in B. lia.
Qed.

(** C1: on two rows of N integers each, [score_subject] returns the sum,
    over the N-1 consecutive pairs (item_a, item_b) of the item indices
    0..N-1 stably sorted by descending numerical value, of 1 when
    categorical[item_a] > categorical[item_b] and of 0 otherwise. *)
Theorem score_subject_counts_disagreements
  (cat_row num_row : list string) (cat num : list Z) (order : list nat) :
  Py.map Py.int cat_row = inr cat ->
  Py.map Py.int num_row = inr num ->
  List.length cat = List.length num ->
  stable_descending_order num order ->
  score_subject cat_row num_row = inr (disagreements cat order) /\
  List.length (pairwise order) = (List.length num - 1)%nat.
Proof.
  intros Hc Hn L O. split.
  - now apply (score_subject_along _ _ _ _ _ Hc Hn).
  - apply order_unique in O. subst order.
    now rewrite pairwise_length, ranked_length.
Qed.

Lemma score_subject_counts_disagreements_witness :
  score_subject ["2"; "1"; "1"; "3"] [" 5"; "5 "; "-7"; "+5"]
  = inr (disagreements [2; 1; 1; 3] [0; 1; 3; 2]%nat) /\
  List.length (pairwise [0; 1; 3; 2]%nat) = (List.length [5; 5; -7; 5]%Z - 1)%nat.
Proof.
  apply (score_subject_counts_disagreements
           ["2"; "1"; "1"; "3"] [" 5"; "5 "; "-7"; "+5"]
           [2; 1; 1; 3] [5; 5; -7; 5] [0; 1; 3; 2]%nat).
  - reflexivity.
  - reflexivity.
  - reflexivity.
  - split.
    + simpl. apply perm_skip, perm_skip, perm_swap.
    + unfold before.
      repeat (constructor; [|repeat constructor; simpl; lia]).
      constructor.
Defined.

(** C4, as the code has it: on two rows of N integers each, the count of
    [score_subject] lies within [0, N-1] when N >= 1 and is 0 when N = 0,
    that is within [0, max(0, N-1)]. *)
Theorem score_subject_range
  (cat_row num_row : list string) (cat num : list Z) :
  Py.map Py.int cat_row = inr cat ->
  Py.map Py.int num_row = inr num ->
  List.length cat = List.length num ->
  exists count : Z,
    score_subject cat_row num_row = inr count /\
    0 <= count <= Z.max 0 (Z.of_nat (List.length num) - 1).
Proof.
  intros Hc Hn L. now apply (score_subject_bounds _ _ _ _ Hc Hn).
Qed.

Lemma score_subject_range_witness :
  exists count : Z,
    score_subject ["1"; "2"; "3"] ["10"; "20"; "30"] = inr count /\
    0 <= count <= Z.max 0 (Z.of_nat (List.length [10; 20; 30]) - 1).
Proof.
  apply (score_subject_range
           ["1"; "2"; "3"] ["10"; "20"; "30"] [1; 2; 3] [10; 20; 30]);
    reflexivity.
Defined.

(** C4 as stated fails on two empty rows (a blank line of each file):
    N = 0, the count is 0 and the range [0, N-1] = [0, -1] holds nothing. *)
Lemma score_subject_range_empty_rows :
  Py.map Py.int [] = inr [] /\
  ~ (exists count : Z,
       score_subject [] [] = inr count /\
       0 <= count <= Z.of_nat (List.length (@nil Z)) - 1).
Proof.
  split; [reflexivity|].
  intros [count [H B]]. simpl in B. lia.
Qed.

(** C10: when the rows hold integers and the numerical row has fewer than
    two entries, there is no pair to score and [score_subject] returns 0;
    so it does for N = 0 and for N = 1. *)
Theorem score_subject_short_rows
  (cat_row num_row : list string) (cat num : list Z) :
  Py.map Py.int cat_row = inr cat ->
  Py.map Py.int num_row = inr num ->
  (List.length num < 2)%nat ->
  score_subject cat_row num_row = inr 0 /\
  pairwise (Py.sorted (fun x y => Py.cmp (snd y) (snd x)) (Py.enumerate num))
  = [].
Proof.
  intros Hc Hn L. unfold score_subject. rewrite Hc, Hn. cbn [bind].
  destruct num as [|n [|m num]]; [split; reflexivity .. | simpl in L; lia].
Qed.

Lemma score_subject_short_rows_witness :
  (score_subject [] [] = inr 0 /\
   pairwise (Py.sorted (fun x y => Py.cmp (snd y) (snd x)) (Py.enumerate []))
   = []) /\
  (score_subject ["4"] ["-9"] = inr 0 /\
   pairwise (Py.sorted (fun x y => Py.cmp (snd y) (snd x)) (Py.enumerate [-9]))
   = []).
Proof.
  split.
  - apply (score_subject_short_rows [] [] [] []);
      [reflexivity | reflexivity | simpl; lia].
  - apply (score_subject_short_rows ["4"] ["-9"] [4] [-9]);
      [reflexivity | reflexivity | simpl; lia].
Defined.

(** C6: a consecutive pair of the sorted items whose categorical values
    are equal scores 0 and leaves the running count as it was, whatever the
    numerical values of the two items, tied or not. *)
Theorem equal_categorical_contributes_zero
  (cat_rankings : list Z) (r1 r2 : nat * Z) (value : Z) :
  nth_error cat_rankings (fst r1) = Some value ->
  nth_error cat_rankings (fst r2) = Some value ->
  score cat_rankings (r1, r2) = inr 0 /\
  forall (pairs : list ((nat * Z) * (nat * Z))) (count : Z),
    Py.reduce (fun x y => s <- score cat_rankings y ;; ret (x + s))
      ((r1, r2) :: pairs) count
    = Py.reduce (fun x y => s <- score cat_rankings y ;; ret (x + s))
        pairs count.
Proof.
  intros H1 H2.
  assert (S0 : score cat_rankings (r1, r2) = inr 0).
  { unfold score, Py.getitem; simpl. rewrite H1, H2. simpl.
    unfold ret. rewrite max_signum_cmp.
    replace (value >? value) with false; [reflexivity|].
    symmetry. rewrite Z.gtb_ltb. apply Z.ltb_irrefl. }
  split; [exact S0|].
  intros pairs count. cbn [Py.reduce]. rewrite S0. cbn [bind ret].
  now rewrite Z.add_0_r.
Qed.

Lemma equal_categorical_contributes_zero_witness :
  score [7; 4; 7] ((0%nat, 5), (2%nat, 5)) = inr 0 /\
  forall (pairs : list ((nat * Z) * (nat * Z))) (count : Z),
    Py.reduce (fun x y => s <- score [7; 4; 7] y ;; ret (x + s))
      (((0%nat, 5), (2%nat, 5)) :: pairs) count
    = Py.reduce (fun x y => s <- score [7; 4; 7] y ;; ret (x + s))
        pairs count.
Proof.
  apply (equal_categorical_contributes_zero
           [7; 4; 7] (0%nat, 5) (2%nat, 5) 7); reflexivity.
Defined.

(** ** Rankings that agree and rankings that are reversed *)

Lemma StronglySorted_weaken {A : Type} (R Q : A -> A -> Prop) (l : list A) :
  (forall x y, R x y -> Q x y) -> StronglySorted R l -> StronglySorted Q l.
Proof.
  intros H S. induction S as [|a l S IH F]; constructor; [exact IH|].
  eapply Forall_impl; [|exact F]. apply H.
Qed.

Lemma StronglySorted_app_inv {A : Type} (R : A -> A -> Prop) (l1 l2 : list A) :
  StronglySorted R (l1 ++ l2) ->
  StronglySorted R l1 /\
  forall x y, In x l1 -> In y l2 -> R x y.
Proof.
  induction l1 as [|a l1 IH]; simpl; intros S.
  - split; [constructor | intros x y []].
  - apply StronglySorted_inv in S. destruct S as [S F].
    destruct (IH S) as [S1 H]. rewrite Forall_app in F. destruct F as [F1 F2].
    split; [now constructor|].
    intros x y [<-|Hx] Hy; [|now apply H].
    rewrite Forall_forall in F2. now apply F2.
Qed.

Lemma StronglySorted_rev {A : Type} (R : A -> A -> Prop) (l : list A) :
  StronglySorted R (rev l) -> StronglySorted (fun a b => R b a) l.
Proof.
  induction l as [|a l IH]; simpl; intros S; [constructor|].
  apply StronglySorted_app_inv in S. destruct S as [S H].
  constructor; [now apply IH|].
  apply Forall_forall. intros x Hx. apply H; [|now left].
  now apply in_rev in Hx.
Qed.

Lemma pairwise_sorted {A : Type} (R : A -> A -> Prop) (l : list A) :
  StronglySorted R l -> Forall (fun p => R (fst p) (snd p)) (pairwise l).
Proof.
  induction 1 as [|a l S IH F]; [constructor|].
  destruct l as [|b l]; [constructor|].
  rewrite pairwise_cons. constructor; [|exact IH].
  simpl. now inversion F.
Qed.

Lemma disagreements_constant (cat : list Z) (order : list nat) (k : Z) :
  Forall (fun p => disagreement cat p = k) (pairwise order) ->
  disagreements cat order = k * Z.of_nat (List.length order - 1).
Proof.
  rewrite <- pairwise_length. unfold disagreements.
  induction 1 as [|p l Hp F IH]; [simpl; lia|].
  cbn [List.map fold_right List.length]. rewrite IH, Hp. lia.
Qed.

(** C7: when one listing of the items is both the strictly descending
    numerical order and the strictly ascending categorical order (highest
    precedence first), [score_subject] returns 0. *)
Theorem identical_order_scores_zero
  (cat_row num_row : list string) (cat num : list Z) (order : list nat) :
  Py.map Py.int cat_row = inr cat ->
  Py.map Py.int num_row = inr num ->
  List.length cat = List.length num ->
  Permutation order (seq 0 (List.length num)) ->
  StronglySorted (fun a b => nth a num 0 > nth b num 0) order ->
  StronglySorted (fun a b => nth a cat 0 < nth b cat 0) order ->
  score_subject cat_row num_row = inr 0.
Proof.
  intros Hc Hn L P Snum Scat.
  assert (O : stable_descending_order num order).
  { split; [exact P|].
    eapply StronglySorted_weaken; [|exact Snum]. intros x y H. now left. }
  rewrite (score_subject_along _ _ _ _ _ Hc Hn L O).
  rewrite (disagreements_constant cat order 0); [f_equal; lia|].
  eapply Forall_impl; [|apply (pairwise_sorted _ _ Scat)].
  intros [a b]; simpl. unfold disagreement; simpl. intros H.
  replace (nth a cat 0 >? nth b cat 0) with false; [reflexivity|].
  symmetry. rewrite Z.gtb_ltb. apply Z.ltb_ge. lia.
Qed.

Lemma identical_order_scores_zero_witness :
  score_subject ["3"; "2"; "1"] ["10"; "20"; "30"] = inr 0.
Proof.
  apply (identical_order_scores_zero
           ["3"; "2"; "1"] ["10"; "20"; "30"] [3; 2; 1] [10; 20; 30]
           [2; 1; 0]%nat).
  - reflexivity.
  - reflexivity.
  - reflexivity.
  - simpl. apply perm_trans with [1; 2; 0]%nat.
    + apply perm_swap.
    + apply perm_trans with [1; 0; 2]%nat; [apply perm_skip, perm_swap|].
      apply perm_swap.
  - repeat (constructor; [|repeat constructor; simpl; lia]). constructor.
  - repeat (constructor; [|repeat constructor; simpl; lia]). constructor.
Defined.

(** C8: for N >= 2, when the strictly descending numerical order of the
    items is the exact reverse of the categorical precedence order (the
    strictly ascending categorical order), [score_subject] returns N-1, and
    no two rows of N integers score more. *)
Theorem reversed_order_scores_maximum
  (cat_row num_row : list string) (cat num : list Z) (order : list nat) :
  Py.map Py.int cat_row = inr cat ->
  Py.map Py.int num_row = inr num ->
  List.length cat = List.length num ->
  (2 <= List.length num)%nat ->
  Permutation order (seq 0 (List.length num)) ->
  StronglySorted (fun a b => nth a num 0 > nth b num 0) order ->
  StronglySorted (fun a b => nth a cat 0 < nth b cat 0) (rev order) ->
  score_subject cat_row num_row = inr (Z.of_nat (List.length num) - 1) /\
  forall (cat_row' num_row' : list string) (cat' num' : list Z),
    Py.map Py.int cat_row' = inr cat' ->
    Py.map Py.int num_row' = inr num' ->
    List.length cat' = List.length num ->
    List.length num' = List.length num ->
    exists count : Z,
      score_subject cat_row' num_row' = inr count /\
      count <= Z.of_nat (List.length num) - 1.
Proof.
  intros Hc Hn L N2 P Snum Scat. split.
  - assert (O : stable_descending_order num order).
    { split; [exact P|].
      eapply StronglySorted_weaken; [|exact Snum]. intros x y H. now left. }
    rewrite (score_subject_along _ _ _ _ _ Hc Hn L O).
    rewrite (disagreements_constant cat order 1).
    + apply Permutation_length in P. rewrite length_seq in P.
      f_equal; lia.
    + eapply Forall_impl;
        [|apply (pairwise_sorted _ _ (StronglySorted_rev _ _ Scat))].
      intros [a b]; simpl. unfold disagreement; simpl. intros H.
      replace (nth a cat 0 >? nth b cat 0) with true; [reflexivity|].
      symmetry. rewrite Z.gtb_ltb. apply Z.ltb_lt. lia.
  - intros cat_row' num_row' cat' num' Hc' Hn' Lc' Ln'.
    destruct (score_subject_bounds cat_row' num_row' cat' num' Hc' Hn')
      as [count [E B]]; [lia|].
    exists count. split; [exact E|]. lia.
Qed.

Lemma reversed_order_scores_maximum_witness :
  score_subject ["1"; "2"; "3"] ["10"; "20"; "30"]
  = inr (Z.of_nat (List.length [10; 20; 30]) - 1) /\
  forall (cat_row' num_row' : list string) (cat' num' : list Z),
    Py.map Py.int cat_row' = inr cat' ->
    Py.map Py.int num_row' = inr num' ->
    List.length cat' = List.length [10; 20; 30] ->
    List.length num' = List.length [10; 20; 30] ->
    exists count : Z,
      score_subject cat_row' num_row' = inr count /\
      count <= Z.of_nat (List.length [10; 20; 30]) - 1.
Proof.
  apply (reversed_order_scores_maximum
           ["1"; "2"; "3"] ["10"; "20"; "30"] [1; 2; 3] [10; 20; 30]
           [2; 1; 0]%nat).
  - reflexivity.
  - reflexivity.
  - reflexivity.
  - simpl. lia.
  - simpl. apply perm_trans with [1; 2; 0]%nat.
    + apply perm_swap.
    + apply perm_trans with [1; 0; 2]%nat; [apply perm_skip, perm_swap|].
      apply perm_swap.
  - repeat (constructor; [|repeat constructor; simpl; lia]). constructor.
  - simpl. repeat (constructor; [|repeat constructor; simpl; lia]). constructor.
Defined.

Lemma zip_rows (cat_rows num_rows : list (list string * nat)) (line : nat) :
  zip (rows_reader cat_rows) line (rows_reader num_rows)
  = inr (combine (List.map fst cat_rows) (List.map fst num_rows)).
Proof.
  revert num_rows line.
  induction cat_rows as [|c cat_rows IH]; intros num_rows line; simpl;
    [reflexivity|].
  destruct num_rows as [|n num_rows]; simpl; [reflexivity|].
  now rewrite IH.
Qed.

Lemma find_inconsistencies_rows (fs : files) (cat_fn num_fn : string)
  (cat_rows num_rows : list (list string * nat)) :
  fs cat_fn = Some (rows_reader cat_rows) ->
  fs num_fn = Some (rows_reader num_rows) ->
  find_inconsistencies fs cat_fn num_fn
  = inr (List.map (fun rows => score_subject (fst rows) (snd rows))
           (combine (List.map fst cat_rows) (List.map fst num_rows))).
Proof.
  intros Hc Hn. unfold find_inconsistencies, open. rewrite Hc, Hn.
  cbn [bind ret]. now rewrite zip_rows.
Qed.

Lemma nth_error_combine {A B : Type} (l : list A) (l' : list B) (i : nat)
  (a : A) (b : B) :
  nth_error l i = Some a -> nth_error l' i = Some b ->
  nth_error (combine l l') i = Some (a, b).
Proof.
  revert l' i. induction l as [|x l IH]; intros l' i; [now destruct i|].
  destruct l' as [|y l']; [now destruct i|].
  destruct i as [|i]; simpl.
  - now intros [= ->] [= ->].
  - apply IH.
Qed.

Lemma tuple_all {A : Type} (iterator : list (result A)) :
  Forall (fun item => exists a, item = inr a) iterator ->
  exists items, Py.tuple iterator = inr items /\
                List.length items = List.length iterator.
Proof.
  induction 1 as [|item l [a ->] F [items [E L]]].
  - exists []. split; reflexivity.
  - exists (a :: items). unfold Py.tuple in *. cbn [Py.map bind].
    rewrite E. split; [reflexivity|]. simpl. now rewrite L.
Qed.

(** C3: when the categorical file yields M rows, the numerical file K rows
    and M <> K, [find_inconsistencies] raises nothing and returns exactly
    min(M, K) counts, the i-th being [score_subject] on row i of the one
    and row i of the other; on rows of integers the counts are min(M, K)
    integers. *)
Theorem find_inconsistencies_truncates (fs : files) (cat_fn num_fn : string)
  (cat_rows num_rows : list (list string * nat)) :
  fs cat_fn = Some (rows_reader cat_rows) ->
  fs num_fn = Some (rows_reader num_rows) ->
  List.length cat_rows <> List.length num_rows ->
  exists iterator : list (result Z),
    find_inconsistencies fs cat_fn num_fn = inr iterator /\
    List.length iterator
    = Nat.min (List.length cat_rows) (List.length num_rows) /\
    (forall i : nat,
       (i < Nat.min (List.length cat_rows) (List.length num_rows))%nat ->
       nth_error iterator i
       = Some (score_subject (fst (nth i cat_rows ([], 0%nat)))
                 (fst (nth i num_rows ([], 0%nat))))) /\
    ((forall i : nat,
        (i < Nat.min (List.length cat_rows) (List.length num_rows))%nat ->
        integer_rows (fst (nth i cat_rows ([], 0%nat)))
          (fst (nth i num_rows ([], 0%nat)))) ->
     exists counts : list Z,
       Py.tuple iterator = inr counts /\
       List.length counts
       = Nat.min (List.length cat_rows) (List.length num_rows)).
Proof.
  intros Hc Hn _. eexists.
  split; [exact (find_inconsistencies_rows _ _ _ _ _ Hc Hn)|].
  set (pairs := combine (List.map fst cat_rows) (List.map fst num_rows)).
  assert (Len : List.length pairs
                = Nat.min (List.length cat_rows) (List.length num_rows))
    by (unfold pairs; now rewrite length_combine, !length_map).
  assert (Nth : forall i,
             (i < Nat.min (List.length cat_rows) (List.length num_rows))%nat ->
             nth_error pairs i
             = Some (fst (nth i cat_rows ([], 0%nat)),
                     fst (nth i num_rows ([], 0%nat)))).
  { intros i Hi. unfold pairs. apply nth_error_combine.
    - rewrite nth_error_map, (nth_error_nth' cat_rows ([], 0%nat)) by lia.
      reflexivity.
    - rewrite nth_error_map, (nth_error_nth' num_rows ([], 0%nat)) by lia.
      reflexivity. }
  split; [now rewrite length_map|]. split.
  - intros i Hi.
    exact (map_nth_error (fun rows => score_subject (fst rows) (snd rows))
             _ _ (Nth i Hi)).
  - intros W.
    destruct (tuple_all
                (List.map (fun rows => score_subject (fst rows) (snd rows))
                   pairs)) as [counts [E L]].
    + apply Forall_forall. intros item Hitem.
      apply In_nth_error in Hitem. destruct Hitem as [i Hi].
      assert (Hlt : (i < Nat.min (List.length cat_rows)
                           (List.length num_rows))%nat).
      { rewrite <- Len, <- (length_map
          (fun rows => score_subject (fst rows) (snd rows))).
        apply nth_error_Some. intros C.
        assert (Some item = None) by (etransitivity; [symmetry; exact Hi | exact C]).
        discriminate. }
      pose proof (map_nth_error
                    (fun rows => score_subject (fst rows) (snd rows))
                    _ _ (Nth i Hlt)) as Hi'.
      simpl in Hi'.
      assert (E : Some item
                  = Some (score_subject (fst (nth i cat_rows ([], 0%nat)))
                            (fst (nth i num_rows ([], 0%nat)))))
        by (etransitivity; [symmetry; exact Hi | exact Hi']).
      injection E as ->.
      destruct (W i Hlt) as [cat [num [Pc [Pn L]]]].
      destruct (score_subject_bounds _ _ _ _ Pc Pn L) as [count [-> _]].
      now exists count.
    + exists counts. split; [exact E|]. now rewrite L, length_map.
Qed.

Lemma find_inconsistencies_truncates_witness :
  exists iterator : list (result Z),
    find_inconsistencies example_files "cat.csv" "num.csv" = inr iterator /\
    List.length iterator = Nat.min 5 4 /\
    nth_error iterator 3 = Some (score_subject ["1"; "2"] ["1"; "2"]) /\
    nth_error iterator 4 = None.
Proof.
  destruct (find_inconsistencies_truncates example_files "cat.csv" "num.csv"
              [(["3"; "2"; "1"], 1%nat); (["1"; "2"; "3"], 1%nat);
               (["1"; "2"; "3"], 1%nat); (["1"; "2"], 1%nat);
               (["1"], 1%nat)]
              [(["10"; "20"; "30"], 1%nat); (["10"; "20"; "30"], 1%nat);
               (["10"; "20"; "30"], 1%nat); (["1"; "2"], 1%nat)])
    as [iterator [E [L [N _]]]].
  - reflexivity.
  - reflexivity.
  - simpl. lia.
  - exists iterator. split; [exact E|]. split; [exact L|]. split.
    + apply (N 3%nat). simpl. lia.
    + apply nth_error_None. rewrite L. simpl. lia.
Defined.

(** C9: with fewer than two positional arguments ([sys.argv] of at most two
    entries) the script prints the usage line to standard output, reads no
    file and scores nothing (the outcome is the same for all files), writes
    no file and ends without error, with status 0. *)
Theorem usage_when_arguments_missing
  (iteritems : list (Z * nat) -> list (Z * nat)) (fs : files)
  (argv : list string) :
  (List.length argv <= 2)%nat ->
  main iteritems fs argv
  = ({| stdout :=
          ["Usage: %s <ranking 1 csv file> <ranking 2 csv file> [output file]"];
        written := [] |}, inr tt) /\
  terminate (snd (main iteritems fs argv)) = Finished /\
  exit_status (terminate (snd (main iteritems fs argv))) = 0.
Proof.
  intros H. unfold main.
  replace (2 <? List.length argv)%nat with false
    by (symmetry; apply Nat.ltb_ge; exact H).
  repeat split.
Qed.

Lemma usage_when_arguments_missing_witness :
  main (fun items => items) example_files ["find_inconsistencies.py"; "cat.csv"]
  = ({| stdout :=
          ["Usage: %s <ranking 1 csv file> <ranking 2 csv file> [output file]"];
        written := [] |}, inr tt) /\
  terminate (snd (main (fun items => items) example_files
                    ["find_inconsistencies.py"; "cat.csv"])) = Finished /\
  exit_status (terminate (snd (main (fun items => items) example_files
                                 ["find_inconsistencies.py"; "cat.csv"]))) = 0.
Proof.
  apply (usage_when_arguments_missing (fun items => items) example_files
           ["find_inconsistencies.py"; "cat.csv"]).
  simpl. lia.
Defined.

(** ** Records that do not parse and fields that are no integers *)

Lemma zip_malformed_cat (before num_before : list (list string * nat))
  (msg : string) (lines : nat) (after num_after : list record) (line : nat) :
  List.length num_before = List.length before ->
  zip (rows_reader before ++ Malformed msg lines :: after) line
    (rows_reader num_before ++ num_after)
  = inl (CsvError msg, (line + lines_of before + lines)%nat).
Proof.
  revert num_before line.
  induction before as [|c before IH]; intros num_before line L; simpl.
  - f_equal. f_equal. lia.
  - destruct num_before as [|n num_before]; [discriminate|]. simpl.
    rewrite IH by (simpl in L; lia). f_equal. f_equal. lia.
Qed.

Lemma main_reports (iteritems : list (Z * nat) -> list (Z * nat))
  (fs : files) (prog cat_fn num_fn : string) (rest : list string) :
  exists out : string,
    main iteritems fs (prog :: cat_fn :: num_fn :: rest)
    = report_inconsistencies iteritems fs cat_fn num_fn out no_effects.
Proof.
  unfold main. cbn [List.length nth Nat.ltb Nat.leb].
  destruct (_ =? 4)%nat; eexists; reflexivity.
Qed.

Lemma report_raises (iteritems : list (Z * nat) -> list (Z * nat))
  (fs : files) (cat_fn num_fn out : string) (w : effects) (e : exn) :
  (iterator <- find_inconsistencies fs cat_fn num_fn ;; Py.tuple iterator)
  = inl e ->
  report_inconsistencies iteritems fs cat_fn num_fn out w = (w, inl e).
Proof.
  intros H. unfold report_inconsistencies.
  destruct (find_inconsistencies fs cat_fn num_fn) as [e'|iterator];
    cbn [bind] in *; [now injection H as ->|].
  now rewrite H.
Qed.

Lemma int_raises (s : string) (e : exn) :
  Py.int s = inl e -> e = ValueError s.
Proof.
  unfold Py.int.
  destruct (match Py.lstrip (list_ascii_of_string s) with
            | [] => _ | _ => _ end) as [negative body].
  destruct (Py.digits (Py.lstrip body) 0 0) as [[value count] rest].
  destruct count; [now intros [= <-]|].
  destruct (Py.lstrip rest); [discriminate | now intros [= <-]].
Qed.

Lemma map_int_raises (row : list string) (e : exn) :
  Py.map Py.int row = inl e -> exists s, e = ValueError s.
Proof.
  induction row as [|f row IH]; simpl; [discriminate|].
  destruct (Py.int f) as [e'|n] eqn:E; cbn [bind].
  - intros [= <-]. exists f. now apply int_raises.
  - destruct (Py.map Py.int row) as [e'|ns]; cbn [bind]; [|discriminate].
    intros [= <-]. now apply IH.
Qed.

Lemma map_int_bad_field (row : list string) (field : string) :
  In field row -> (exists e, Py.int field = inl e) ->
  exists e, Py.map Py.int row = inl e.
Proof.
  intros I [e E]. induction row as [|f row IH]; [destruct I|]. simpl.
  destruct (Py.int f) as [e'|n] eqn:F; cbn [bind]; [now exists e'|].
  destruct I as [->|I]; [congruence|].
  destruct (IH I) as [e' ->]. now exists e'.
Qed.

Lemma reduce_score_raises (cat : list Z)
  (pairs : list ((nat * Z) * (nat * Z))) (init : Z) (e : exn) :
  Py.reduce (fun x y => s <- score cat y ;; ret (x + s)) pairs init = inl e ->
  e = IndexError.
Proof.
  revert init; induction pairs as [|p pairs IH]; intros init; simpl;
    [discriminate|].
  unfold score at 1, Py.getitem.
  destruct (nth_error cat (fst (fst p))); cbn [bind ret raise];
    [|now intros [= <-]].
  destruct (nth_error cat (fst (snd p))); cbn [bind ret raise];
    [|now intros [= <-]].
  apply IH.
Qed.

Lemma score_subject_raises (cat_row num_row : list string) (e : exn) :
  score_subject cat_row num_row = inl e ->
  e = IndexError \/ exists s, e = ValueError s.
Proof.
  unfold score_subject.
  destruct (Py.map Py.int cat_row) as [e'|cat] eqn:C; cbn [bind].
  - intros [= <-]. right. now apply (map_int_raises cat_row).
  - destruct (Py.map Py.int num_row) as [e'|num] eqn:N; cbn [bind].
    + intros [= <-]. right. now apply (map_int_raises num_row).
    + intros H. left. now apply reduce_score_raises in H.
Qed.

Lemma score_subject_bad_field_raises (cat_row num_row : list string)
  (field : string) :
  In field (cat_row ++ num_row) -> (exists e, Py.int field = inl e) ->
  exists e, score_subject cat_row num_row = inl e.
Proof.
  intros I B. unfold score_subject. apply in_app_or in I.
  destruct (Py.map Py.int cat_row) as [e'|cat] eqn:C; cbn [bind];
    [now exists e'|].
  destruct I as [I|I].
  - destruct (map_int_bad_field _ _ I B) as [e' E]. congruence.
  - destruct (map_int_bad_field _ _ I B) as [e' ->]. now exists e'.
Qed.

Lemma tuple_raises {A : Type} (iterator : list (result A)) (item : result A)
  (e0 : exn) :
  In item iterator -> item = inl e0 ->
  exists e, Py.tuple iterator = inl e /\ In (inl e) iterator.
Proof.
  intros I ->. unfold Py.tuple.
  induction iterator as [|x l IH]; [destruct I|]. simpl.
  destruct x as [e|a]; cbn [bind].
  - exists e. split; [reflexivity | now left].
  - destruct I as [I|I]; [discriminate|].
    destruct (IH I) as [e [-> Hin]]. exists e. split; [reflexivity | now right].
Qed.

(** A record of the numerical file that does not parse is reported under
    the name and the line number of the categorical file. *)
Example malformed_num_names_cat :
  main (fun items => items) malformed_num_files
    ["find_inconsistencies.py"; "cat.csv"; "num.csv"]
  = (no_effects,
     inl (SystemExit "file cat.csv, line 1: line contains NULL byte")).
Proof. reflexivity. Qed.

(** C2, as the code has it: when the reader of the categorical file raises
    [csv.Error] on a record, the numerical file having yielded its rows up
    to there, the script prints and writes nothing and ends through
    [sys.exit] with the message
    "file <categorical file>, line <its reader's line number>: <error>";
    when every record parses and a field of some pair of rows is no integer,
    the script prints and writes nothing and ends with an exception nobody
    catches ([ValueError], or [IndexError] from a pair before), so with a
    traceback and with no file name or line number. *)
Theorem parse_errors_end_the_run
  (iteritems : list (Z * nat) -> list (Z * nat)) (fs : files)
  (prog cat_fn num_fn : string) (rest : list string) :
  (forall (before num_before : list (list string * nat)) (msg : string)
          (lines : nat) (after num_after : list record),
      fs cat_fn = Some (rows_reader before ++ Malformed msg lines :: after) ->
      fs num_fn = Some (rows_reader num_before ++ num_after) ->
      List.length num_before = List.length before ->
      main iteritems fs (prog :: cat_fn :: num_fn :: rest)
      = (no_effects,
         inl (SystemExit
                ("file " ++ cat_fn ++ ", line "
                 ++ Py.str (Z.of_nat (lines_of before + lines)) ++ ": "
                 ++ msg)%string))) /\
  (forall (cat_rows num_rows : list (list string * nat)) (i : nat)
          (field : string),
      fs cat_fn = Some (rows_reader cat_rows) ->
      fs num_fn = Some (rows_reader num_rows) ->
      (i < Nat.min (List.length cat_rows) (List.length num_rows))%nat ->
      In field (fst (nth i cat_rows ([], 0%nat))
                ++ fst (nth i num_rows ([], 0%nat))) ->
      (exists e, Py.int field = inl e) ->
      exists e : exn,
        main iteritems fs (prog :: cat_fn :: num_fn :: rest)
        = (no_effects, inl e) /\
        terminate (inl e) = Traceback e /\
        (e = IndexError \/ exists s, e = ValueError s)).
Proof.
  destruct (main_reports iteritems fs prog cat_fn num_fn rest) as [out ->].
  split.
  - intros before num_before msg lines after num_after Hc Hn L.
    apply report_raises. unfold find_inconsistencies, open.
    rewrite Hc, Hn. cbn [bind ret].
    now rewrite (zip_malformed_cat _ _ _ _ _ _ _ L).
  - intros cat_rows num_rows i field Hc Hn Hi I B.
    set (c := fst (nth i cat_rows ([], 0%nat))) in *.
    set (n := fst (nth i num_rows ([], 0%nat))) in *.
    destruct (score_subject_bad_field_raises c n field I B) as [e0 E0].
    assert (Hin : In (score_subject c n)
                    (List.map (fun rows => score_subject (fst rows) (snd rows))
                       (combine (List.map fst cat_rows)
                          (List.map fst num_rows)))).
    { apply (in_map (fun rows => score_subject (fst rows) (snd rows)) _ (c, n)).
      apply (nth_error_In _ i). apply nth_error_combine.
      - rewrite nth_error_map, (nth_error_nth' cat_rows ([], 0%nat)) by lia.
        reflexivity.
      - rewrite nth_error_map, (nth_error_nth' num_rows ([], 0%nat)) by lia.
        reflexivity. }
    destruct (tuple_raises _ _ _ Hin E0) as [e [T Te]].
    assert (K : e = IndexError \/ exists s, e = ValueError s).
    { apply in_map_iff in Te. destruct Te as [rows [Te _]].
      now apply score_subject_raises in Te. }
    exists e. split; [|split; [|exact K]].
    + apply report_raises.
      rewrite (find_inconsistencies_rows _ _ _ _ _ Hc Hn). exact T.
    + destruct K as [->|[s ->]]; reflexivity.
Qed.

Lemma parse_errors_end_the_run_witness :
  main (fun items => items) malformed_cat_files
    ["find_inconsistencies.py"; "cat.csv"; "num.csv"]
  = (no_effects,
     inl (SystemExit "file cat.csv, line 2: line contains NULL byte")) /\
  exists e : exn,
    main (fun items => items) bad_field_files
      ["find_inconsistencies.py"; "cat.csv"; "num.csv"]
    = (no_effects, inl e) /\
    terminate (inl e) = Traceback e /\
    (e = IndexError \/ exists s, e = ValueError s).
Proof.
  split.
  - apply (proj1 (parse_errors_end_the_run (fun items => items)
                    malformed_cat_files "find_inconsistencies.py"
                    "cat.csv" "num.csv" [])
             [(["1"; "2"], 1%nat)] [(["10"; "20"], 1%nat)]
             "line contains NULL byte" 1%nat [Row ["2"; "1"] 1]
             [Row ["10"; "20"] 1; Row ["10"; "20"] 1]);
      reflexivity.
  - apply (proj2 (parse_errors_end_the_run (fun items => items)
                    bad_field_files "find_inconsistencies.py"
                    "cat.csv" "num.csv" [])
             [(["1"; "2"], 1%nat); (["1"; "x"], 1%nat)]
             [(["10"; "20"], 1%nat); (["10"; "20"], 1%nat)] 1%nat "x").
    + reflexivity.
    + reflexivity.
    + simpl. lia.
    + simpl. right. now left.
    + eexists. reflexivity.
Defined.

(** C2 as stated fails on a field that is no integer: the run ends with an
    uncaught [ValueError], not with a message from [sys.exit]. *)
Lemma bad_field_gives_traceback :
  (exists e, Py.int "x" = inl e) /\
  main (fun items => items) bad_field_files
    ["find_inconsistencies.py"; "cat.csv"; "num.csv"]
  = (no_effects, inl (ValueError "x")) /\
  terminate (snd (main (fun items => items) bad_field_files
                    ["find_inconsistencies.py"; "cat.csv"; "num.csv"]))
  = Traceback (ValueError "x") /\
  ~ (exists msg : string,
       terminate (snd (main (fun items => items) bad_field_files
                         ["find_inconsistencies.py"; "cat.csv"; "num.csv"]))
       = Exited msg).
Proof.
  split; [eexists; reflexivity|].
  split; [reflexivity|]. split; [reflexivity|].
  intros [msg H]. discriminate H.
Qed.

(** ** Floats that hold integers *)

Lemma digits2_bounds (p : positive) :
  2 ^ (Zpos (digits2_pos p) - 1) <= Zpos p < 2 ^ Zpos (digits2_pos p).
Proof.
  induction p as [p IH|p IH|]; simpl digits2_pos.
  - rewrite Pos2Z.inj_succ.
    replace (Z.succ (Zpos (digits2_pos p)) - 1) with (Zpos (digits2_pos p)) by lia.
    rewrite Z.pow_succ_r by lia.
    assert (H : 2 ^ Zpos (digits2_pos p) = 2 * 2 ^ (Zpos (digits2_pos p) - 1)).
    { rewrite <- Z.pow_succ_r by lia. f_equal; lia. }
    lia.
  - rewrite Pos2Z.inj_succ.
    replace (Z.succ (Zpos (digits2_pos p)) - 1) with (Zpos (digits2_pos p)) by lia.
    rewrite Z.pow_succ_r by lia.
    assert (H : 2 ^ Zpos (digits2_pos p) = 2 * 2 ^ (Zpos (digits2_pos p) - 1)).
    { rewrite <- Z.pow_succ_r by lia. f_equal; lia. }
    lia.
  - simpl. lia.
Qed.

Lemma digits2_unique (p : positive) (d : Z) :
  2 ^ (d - 1) <= Zpos p < 2 ^ d -> 0 < d -> Zpos (digits2_pos p) = d.
Proof.
  intros [L U] Hd. pose proof (digits2_bounds p) as [L' U'].
  destruct (Z.lt_trichotomy (Zpos (digits2_pos p)) d) as [H|[H|H]]; [|exact H|].
  - exfalso.
    assert (2 ^ Zpos (digits2_pos p) <= 2 ^ (d - 1))
      by (apply Z.pow_le_mono_r; lia).
    lia.
  - exfalso.
    assert (2 ^ d <= 2 ^ (Zpos (digits2_pos p) - 1))
      by (apply Z.pow_le_mono_r; lia).
    lia.
Qed.

Lemma iter_xO (p k : positive) :
  Zpos (Pos.iter xO p k) = Zpos p * 2 ^ Zpos k.
Proof.
  induction k as [|k IH] using Pos.peano_ind.
  - simpl. lia.
  - rewrite Pos.iter_succ, Pos2Z.inj_succ, Z.pow_succ_r by lia.
    rewrite Pos2Z.inj_xO, IH. lia.
Qed.

Lemma fexp_normal (e : Z) : -1021 <= e -> fexp 53 1024 e = e - 53.
Proof. intros H. unfold fexp, emin. lia. Qed.

Lemma loc_of_record_of (m : Z) (l : location) :
  loc_of_shr_record (shr_record_of_loc m l) = l.
Proof. now destruct l as [|[| |]]. Qed.

Lemma shr_m_record_of (m : Z) (l : location) :
  shr_m (shr_record_of_loc m l) = m.
Proof. now destruct l as [|[| |]]. Qed.

(** A mantissa of 53 bits is left as it is. *)
Lemma shr_fexp_53 (m : positive) (e : Z) (l : location) :
  2 ^ 52 <= Zpos m < 2 ^ 53 -> -1074 <= e ->
  shr_fexp 53 1024 (Zpos m) e l = (shr_record_of_loc (Zpos m) l, e).
Proof.
  intros Hm He. unfold shr_fexp. cbn [Zdigits2].
  rewrite (digits2_unique m 53) by (simpl Z.sub; lia).
  rewrite fexp_normal by lia.
  replace (53 + e - 53 - e) with 0 by lia. reflexivity.
Qed.

(** A mantissa of 54 bits loses its last bit. *)
Lemma shr_fexp_54 (m : positive) (e : Z) (l : location) :
  2 ^ 53 <= Zpos m < 2 ^ 54 -> -1074 <= e ->
  shr_fexp 53 1024 (Zpos m) e l
  = (shr_1 (shr_record_of_loc (Zpos m) l), e + 1).
Proof.
  intros Hm He. unfold shr_fexp. cbn [Zdigits2].
  rewrite (digits2_unique m 54) by (simpl Z.sub; lia).
  rewrite fexp_normal by lia.
  replace (54 + e - 53 - e) with 1 by lia. reflexivity.
Qed.

Lemma binary_round_aux_53 (m : positive) (e : Z) (l : location) :
  2 ^ 52 <= Zpos m < 2 ^ 53 -> -1074 <= e <= 971 ->
  round_nearest_even (Zpos m) l < 2 ^ 53 ->
  exists M : positive,
    binary_round_aux 53 1024 false (Zpos m) e l = S754_finite false M e /\
    Zpos M = round_nearest_even (Zpos m) l.
Proof.
  intros Hm He HM. unfold binary_round_aux.
  rewrite shr_fexp_53 by lia.
  rewrite loc_of_record_of, shr_m_record_of.
  assert (R : Zpos m <= round_nearest_even (Zpos m) l)
    by (unfold round_nearest_even; destruct l as [|[| |]];
        try destruct (Z.even _); lia).
  destruct (round_nearest_even (Zpos m) l) as [|M|M] eqn:E; try lia.
  exists M. rewrite shr_fexp_53 by lia. cbn [shr_m shr_record_of_loc].
  replace (e <=? 1024 - 53) with true by (symmetry; apply Z.leb_le; lia).
  split; reflexivity.
Qed.

Lemma shr_1_round (m : positive) (l : location) :
  let mrs := shr_1 (shr_record_of_loc (Zpos m) l) in
  let M := round_nearest_even (shr_m mrs) (loc_of_shr_record mrs) in
  M = Zpos m / 2 \/ (M = Zpos m / 2 + 1 /\ Zpos m = 2 * (Zpos m / 2) + 1).
Proof.
  assert (O : forall p, Zpos p~0 / 2 = Zpos p)
    by (intros p; rewrite Pos2Z.inj_xO, Z.mul_comm; apply Z.div_mul; lia).
  assert (I : forall p, Zpos p~1 / 2 = Zpos p).
  { intros p. rewrite Pos2Z.inj_xI. symmetry.
    apply (Z.div_unique _ _ _ 1); lia. }
  destruct m as [p|p|]; destruct l as [|[| |]];
    try (vm_compute; (left; reflexivity) || (right; split; reflexivity));
    cbn -[Z.div Z.mul Z.add Z.even];
    rewrite ?O, ?I; try destruct (Z.even _);
    (left; reflexivity) || (right; split; [reflexivity|lia]).
Qed.

Lemma binary_round_aux_54 (m : positive) (e : Z) (l : location) :
  2 ^ 53 <= Zpos m < 2 ^ 54 -> -1074 <= e <= 970 ->
  Zpos m <> 2 ^ 54 - 1 ->
  exists M : positive,
    binary_round_aux 53 1024 false (Zpos m) e l
    = S754_finite false M (e + 1) /\
    (Zpos M = Zpos m / 2 \/
     (Zpos M = Zpos m / 2 + 1 /\ Zpos m = 2 * (Zpos m / 2) + 1)).
Proof.
  intros Hm He Hmax. unfold binary_round_aux.
  rewrite shr_fexp_54 by lia.
  pose proof (shr_1_round m l) as R. cbv zeta in R.
  set (rounded := round_nearest_even _ _) in *.
  assert (H2 : 2 ^ 52 <= Zpos m / 2 < 2 ^ 53).
  { split.
    - apply Z.div_le_lower_bound; lia.
    - apply Z.div_lt_upper_bound; lia. }
  assert (HM : 2 ^ 52 <= rounded < 2 ^ 53) by lia.
  destruct rounded as [|M|M] eqn:E; try lia.
  exists M. rewrite shr_fexp_53 by lia. cbn [shr_m shr_record_of_loc].
  replace (e + 1 <=? 1024 - 53) with true by (symmetry; apply Z.leb_le; lia).
  split; [reflexivity | exact R].
Qed.

(** [float(n)] for 0 < n < 2^53 is [n] itself, with a mantissa of 53 bits. *)
Lemma float_of_int_exact (n : Z) :
  0 < n < 2 ^ 53 ->
  exists (m : positive) (a : Z),
    Py.float_of_int n = inr (S754_finite false m (- a)) /\
    0 <= a <= 52 /\ Zpos m = n * 2 ^ a /\ 2 ^ 52 <= Zpos m < 2 ^ 53.
Proof.
  intros Hn. destruct n as [|p|p]; try lia.
  pose proof (digits2_bounds p) as D.
  set (d := Zpos (digits2_pos p)) in *.
  assert (Hd : 1 <= d <= 53).
  { split; [unfold d; lia|].
    destruct (Z_le_gt_dec d 53) as [H|H]; [exact H|].
    assert (2 ^ 53 <= 2 ^ (d - 1)) by (apply Z.pow_le_mono_r; lia). lia. }
  assert (P : 2 ^ 53 = 2 ^ (d - 1) * 2 * 2 ^ (53 - d)).
  { replace (2 ^ 53) with (2 ^ ((d - 1) + 1 + (53 - d))) by (f_equal; lia).
    rewrite !Z.pow_add_r by lia. now rewrite Z.pow_1_r. }
  assert (P' : 2 ^ 53 = 2 ^ d * 2 ^ (53 - d))
    by (rewrite <- Z.pow_add_r by lia; f_equal; lia).
  assert (Q : 0 < 2 ^ (53 - d)) by (apply Z.pow_pos_nonneg; lia).
  exists (match (53 - d)%Z with Zpos k => Pos.iter xO p k | _ => p end), (53 - d).
  assert (V : Zpos (match (53 - d)%Z with Zpos k => Pos.iter xO p k | _ => p end)
              = Zpos p * 2 ^ (53 - d)).
  { destruct (53 - d) as [|k|k] eqn:K; try lia. apply iter_xO. }
  assert (B : 2 ^ 52 <= Zpos p * 2 ^ (53 - d) < 2 ^ 53).
  { split.
    - assert (2 ^ 52 * 2 = 2 ^ (d - 1) * 2 ^ (53 - d) * 2)
        by (change (2 ^ 52 * 2) with (2 ^ 53); lia).
      assert (2 ^ (d - 1) * 2 ^ (53 - d) <= Zpos p * 2 ^ (53 - d))
        by (apply Z.mul_le_mono_nonneg_r; lia).
      lia.
    - rewrite P'. apply Z.mul_lt_mono_pos_r; lia. }
  split; [|split; [lia | split; [exact V | now rewrite V]]].
  unfold Py.float_of_int, binary_normalize, binary_round.
  fold d. rewrite Z.add_0_r, fexp_normal by lia.
  unfold shl_align. replace (d - 53 - 0) with (- (53 - d)) by lia.
  destruct (53 - d) as [|k|k] eqn:K; try lia; cbn [Z.opp].
  - assert (Hp : 2 ^ 52 <= Zpos p < 2 ^ 53) by (simpl in B; lia).
    destruct (binary_round_aux_53 p 0 loc_Exact Hp) as [M [-> EM]];
      [lia | simpl; lia |].
    simpl in EM. injection EM as ->. reflexivity.
  - replace (d - 53) with (Zneg k) by lia.
    rewrite <- V in B.
    destruct (binary_round_aux_53 (Pos.iter xO p k) (Zneg k) loc_Exact B)
      as [M [-> EM]]; [lia | simpl round_nearest_even; lia |].
    simpl in EM. injection EM as ->. reflexivity.
Qed.

Lemma SFdiv_normal (m1 m2 : positive) (a b q r : Z) :
  2 ^ 52 <= Zpos m1 < 2 ^ 53 -> 2 ^ 52 <= Zpos m2 < 2 ^ 53 ->
  0 <= a <= 52 -> 0 <= b <= 52 ->
  Z.div_eucl (Zpos m1 * 2 ^ 53) (Zpos m2) = (q, r) ->
  SFdiv 53 1024 (S754_finite false m1 (- a)) (S754_finite false m2 (- b))
  = binary_round_aux 53 1024 false q (b - a - 53)
      (new_location (Zpos m2) r).
Proof.
  intros H1 H2 Ha Hb E. unfold SFdiv, SFdiv_core_binary. cbn [Zdigits2].
  rewrite (digits2_unique m1 53), (digits2_unique m2 53)
    by (simpl Z.sub; lia).
  rewrite fexp_normal by lia.
  replace (Z.min (53 + - a - (53 + - b) - 53) (- a - - b)) with (b - a - 53)
    by lia.
  replace (- a - - b - (b - a - 53)) with 53 by lia.
  rewrite Z.shiftl_mul_pow2 by lia. rewrite E. reflexivity.
Qed.

Lemma int_of_float_finite (m : positive) (c : Z) :
  0 <= c -> Py.int_of_float (S754_finite false m (- c)) = inr (Zpos m / 2 ^ c).
Proof.
  intros Hc. unfold Py.int_of_float, ret.
  destruct c as [|k|k]; try lia; cbn [Z.opp]; f_equal.
  - rewrite Z.shiftl_0_r, Z.pow_0_r. symmetry. apply Z.div_1_r.
  - apply Z.shiftr_div_pow2. lia.
Qed.

(** The quotient of the mantissas brackets the quotient of the integers. *)
Lemma quotient_bracket (s n m1 m2 q r k A B P T : Z) :
  0 < n -> 0 < A -> 0 < B -> 0 < T -> 0 <= k ->
  m1 = s * A -> m2 = n * B -> m2 < T ->
  q * m2 + r = m1 * T -> 0 <= r < m2 ->
  P * B = T * A ->
  k * n <= s < (k + 1) * n ->
  k * P <= q /\ q + 1 < (k + 1) * P.
Proof.
  intros Hn HA HB HT Hk E1 E2 L D R EP [K1 K2].
  assert (Hm2 : 0 < m2) by lia.
  assert (F1 : k * P * m2 = k * n * (T * A)).
  { subst m2. rewrite <- EP. ring. }
  assert (F2 : (k + 1) * P * m2 = (k + 1) * n * (T * A)).
  { subst m2. rewrite <- EP. ring. }
  assert (TA : T <= T * A) by nia.
  assert (G1 : k * n * (T * A) <= s * (T * A))
    by (apply Z.mul_le_mono_nonneg_r; nia).
  assert (G2 : (s + 1) * (T * A) <= (k + 1) * n * (T * A))
    by (apply Z.mul_le_mono_nonneg_r; nia).
  assert (E3 : m1 * T = s * (T * A)) by (subst m1; ring).
  split.
  - assert (k * P * m2 < (q + 1) * m2) by nia.
    assert (k * P < q + 1) by (apply (Z.mul_lt_mono_pos_r m2); assumption).
    lia.
  - assert ((q + 1) * m2 < (k + 1) * P * m2) by nia.
    apply (Z.mul_lt_mono_pos_r m2); assumption.
Qed.

Lemma pow2_split (a b : Z) :
  0 <= a <= 52 -> 0 <= b <= 52 ->
  2 ^ (53 + a - b) * 2 ^ b = 2 ^ 53 * 2 ^ a /\
  2 ^ (53 + a - b) = 2 * 2 ^ (52 + a - b) /\
  0 < 2 ^ a /\ 0 < 2 ^ b /\ 0 < 2 ^ (52 + a - b).
Proof.
  intros Ha Hb. repeat split.
  - rewrite <- !Z.pow_add_r by lia. f_equal; lia.
  - rewrite <- Z.pow_succ_r by lia. f_equal; lia.
  - apply Z.pow_pos_nonneg; lia.
  - apply Z.pow_pos_nonneg; lia.
  - apply Z.pow_pos_nonneg; lia.
Qed.

(** Dividing an integer below 2^53 by a float that holds an integer below
    2^53 and cutting the fraction off gives the integer quotient. *)
Lemma int_of_quotient (s n : Z) :
  0 <= s < 2 ^ 53 -> 0 < n < 2 ^ 53 ->
  exists x avg : spec_float,
    Py.float_of_int n = inr x /\
    Py.div_int_float s x = inr avg /\
    Py.int_of_float avg = inr (s / n).
Proof.
  intros Hs Hn.
  destruct (float_of_int_exact n Hn) as [m2 [b [En [Hb [V2 B2]]]]].
  exists (S754_finite false m2 (- b)).
  destruct (Z.eq_dec s 0) as [->|Hs0].
  - exists (S754_zero false). split; [exact En|].
    split; [reflexivity|]. now rewrite Z.div_0_l by lia.
  - destruct (float_of_int_exact s ltac:(lia)) as [m1 [a [Es [Ha [V1 B1]]]]].
    unfold Py.div_int_float. rewrite Es. cbn [bind ret].
    destruct (Z.div_eucl (Zpos m1 * 2 ^ 53) (Zpos m2)) as [q r] eqn:D.
    rewrite (SFdiv_normal m1 m2 a b q r B1 B2 Ha Hb D).
    pose proof (Z_div_mod (Zpos m1 * 2 ^ 53) (Zpos m2) ltac:(lia)) as DM.
    rewrite D in DM. destruct DM as [DM R].
    destruct (pow2_split a b Ha Hb) as [EP [EP2 [PA [PB PC]]]].
    set (k := s / n).
    assert (K : k * n <= s < (k + 1) * n).
    { unfold k. pose proof (Z.mul_div_le s n ltac:(lia)).
      pose proof (Z.mul_succ_div_gt s n ltac:(lia)). lia. }
    assert (K0 : 0 <= k) by (unfold k; apply Z.div_pos; lia).
    destruct (quotient_bracket s n (Zpos m1) (Zpos m2) q r k (2 ^ a) (2 ^ b)
                (2 ^ (53 + a - b)) (2 ^ 53))
      as [Lo Hi]; try lia.
    assert (Q : 2 ^ 52 <= q < 2 ^ 54) by nia.
    destruct q as [|qp|qp]; try lia.
    destruct (Z_lt_ge_dec (Zpos qp) (2 ^ 53)) as [Small|Big].
    + assert (Zpos qp <> 2 ^ 53 - 1) by (intros C; rewrite C in *; lia).
      assert (RN : forall l, Zpos qp <= round_nearest_even (Zpos qp) l
                             <= Zpos qp + 1)
        by (intros l; unfold round_nearest_even; destruct l as [|[| |]];
            try destruct (Z.even _); lia).
      destruct (binary_round_aux_53 qp (b - a - 53)
                  (new_location (Zpos m2) r))
        as [M [-> EM]]; [lia | lia | specialize (RN (new_location (Z.pos m2) r)); lia |].
      exists (S754_finite false M (b - a - 53)).
      split; [exact En|]. split; [reflexivity|].
      replace (b - a - 53) with (- (53 + a - b)) by lia.
      rewrite int_of_float_finite by lia. f_equal.
      specialize (RN (new_location (Zpos m2) r)). rewrite <- EM in RN.
      symmetry.
      apply (Z.div_unique _ _ _ (Zpos M - k * 2 ^ (53 + a - b))); lia.
    + assert (Zpos qp <> 2 ^ 54 - 1) by (intros C; rewrite C in *; lia).
      destruct (binary_round_aux_54 qp (b - a - 53)
                  (new_location (Zpos m2) r))
        as [M [-> EM]]; [lia | lia | assumption |].
      exists (S754_finite false M (b - a - 53 + 1)).
      split; [exact En|]. split; [reflexivity|].
      replace (b - a - 53 + 1) with (- (52 + a - b)) by lia.
      rewrite int_of_float_finite by lia. f_equal.
      pose proof (Z.mul_div_le (Zpos qp) 2 ltac:(lia)) as H1.
      pose proof (Z.mul_succ_div_gt (Zpos qp) 2 ltac:(lia)) as H2.
      symmetry.
      apply (Z.div_unique _ _ _ (Zpos M - k * 2 ^ (52 + a - b))); nia.
Qed.

(** ** The statistics *)

Lemma reduce_score_nonneg (cat : list Z)
  (pairs : list ((nat * Z) * (nat * Z))) (init count : Z) :
  0 <= init ->
  Py.reduce (fun x y => s <- score cat y ;; ret (x + s)) pairs init
  = inr count ->
  0 <= count.
Proof.
  revert init; induction pairs as [|p pairs IH]; intros init H; simpl.
  - intros [= <-]. exact H.
  - unfold score at 1.
    destruct (Py.getitem cat (fst (fst p))) as [e|c1]; cbn [bind];
      [discriminate|].
    destruct (Py.getitem cat (fst (snd p))) as [e|c2]; cbn [bind ret];
      [discriminate|].
    apply IH. lia.
Qed.

Lemma score_subject_nonneg (cat_row num_row : list string) (count : Z) :
  score_subject cat_row num_row = inr count -> 0 <= count.
Proof.
  unfold score_subject.
  destruct (Py.map Py.int cat_row) as [e|cat]; cbn [bind]; [discriminate|].
  destruct (Py.map Py.int num_row) as [e|num]; cbn [bind]; [discriminate|].
  apply reduce_score_nonneg. lia.
Qed.

Lemma find_inconsistencies_scores (fs : files) (cat_fn num_fn : string)
  (iterator : list (result Z)) :
  find_inconsistencies fs cat_fn num_fn = inr iterator ->
  Forall (fun item => forall count, item = inr count -> 0 <= count) iterator.
Proof.
  unfold find_inconsistencies.
  destruct (open fs cat_fn) as [e|cat_reader]; cbn [bind]; [discriminate|].
  destruct (open fs num_fn) as [e|num_reader]; cbn [bind]; [discriminate|].
  destruct (zip cat_reader 0 num_reader) as [[e line]|rows].
  - destruct e; discriminate.
  - intros [= <-]. apply Forall_forall. intros item Hin count ->.
    apply in_map_iff in Hin. destruct Hin as [pair [E _]].
    now apply score_subject_nonneg in E.
Qed.

Lemma fold_add_nonneg (l : list Z) (acc : Z) :
  0 <= acc -> Forall (fun x => 0 <= x) l -> 0 <= fold_left Z.add l acc.
Proof.
  revert acc; induction l as [|x l IH]; intros acc H F; simpl; [exact H|].
  inversion F; subst. apply IH; [lia | assumption].
Qed.

Lemma tuple_nonneg (iterator : list (result Z)) (counts : list Z) :
  Forall (fun item => forall count, item = inr count -> 0 <= count) iterator ->
  Py.tuple iterator = inr counts ->
  Forall (fun x => 0 <= x) counts.
Proof.
  unfold Py.tuple. intros F; revert counts.
  induction F as [|item l H F IH]; intros counts; simpl.
  - intros [= <-]. constructor.
  - destruct item as [e|a]; cbn [bind]; [discriminate|].
    destruct (Py.map (fun item => item) l) as [e|rest]; cbn [bind ret];
      [discriminate|].
    intros [= <-]. constructor; [now apply H | now apply IH].
Qed.

Lemma count_up_not_nil (x : Z) (c : list (Z * nat)) : Py.count_up x c <> [].
Proof.
  destruct c as [|[y n] c]; simpl; [discriminate|].
  destruct (x =? y); discriminate.
Qed.

Lemma Counter_not_nil (l : list Z) : l <> [] -> Py.Counter l <> [].
Proof.
  unfold Py.Counter. destruct l as [|x l]; [congruence|]. intros _. simpl.
  assert (G : forall c, c <> [] ->
                fold_left (fun c x => Py.count_up x c) l c <> []).
  { induction l as [|y l IH]; intros c Hc; simpl; [exact Hc|].
    apply IH, count_up_not_nil. }
  apply G. discriminate.
Qed.

Lemma most_common_returns (iteritems : list (Z * nat) -> list (Z * nat))
  (counts : list Z) :
  (forall c, Permutation (iteritems c) c) -> counts <> [] ->
  exists mode, most_common iteritems counts = inr mode.
Proof.
  intros Hperm Hc. unfold most_common.
  destruct (iteritems (Py.Counter counts)) as [|item items] eqn:E.
  - exfalso. apply (Counter_not_nil counts Hc).
    specialize (Hperm (Py.Counter counts)). rewrite E in Hperm.
    now apply Permutation_nil in Hperm.
  - eexists. reflexivity.
Qed.

(** The maximum is the item that outnumbers all the others, wherever it
    stands. *)
Lemma max_by_count_unique (x best : Z * nat) (items : list (Z * nat)) :
  In x (best :: items) ->
  (forall y, In y (best :: items) -> y <> x -> (snd y < snd x)%nat) ->
  Py.max_by_count best items = x.
Proof.
  revert best; induction items as [|item items IH]; intros best Hin Hmax.
  - destruct Hin as [->|[]]. reflexivity.
  - assert (Dec : {best = item} + {best <> item})
      by (decide equality; [apply Nat.eq_dec | apply Z.eq_dec]).
    cbn [Py.max_by_count]. apply IH.
    + destruct (snd best <? snd item)%nat eqn:C.
      * apply Nat.ltb_lt in C. destruct Hin as [<-|[<-|Hin]].
        -- left. destruct Dec as [E|E]; [now symmetry|].
           enough (snd item < snd best)%nat by lia.
           apply Hmax; [right; now left | congruence].
        -- now left.
        -- now right.
      * apply Nat.ltb_ge in C. destruct Hin as [<-|[<-|Hin]].
        -- now left.
        -- left. destruct Dec as [E|E]; [exact E|].
           enough (snd best < snd item)%nat by lia.
           apply Hmax; [now left | exact E].
        -- now right.
    + intros y Hy Ne. apply Hmax; [|exact Ne].
      destruct Hy as [<-|Hy]; [|now right; right].
      destruct (snd best <? snd item)%nat; [right; now left | now left].
Qed.

Lemma average_truncates (counts : list Z) :
  counts <> [] ->
  0 <= Py.sum counts < 2 ^ 53 ->
  Z.of_nat (List.length counts) < 2 ^ 53 ->
  exists avg : spec_float,
    average counts = inr avg /\
    Py.format_d_float avg
    = inr (Py.str (Z.quot (Py.sum counts) (Z.of_nat (List.length counts)))).
Proof.
  intros Hc Hs Hn.
  assert (Hl : 0 < Z.of_nat (List.length counts))
    by (destruct counts; [congruence | simpl List.length; lia]).
  destruct (int_of_quotient (Py.sum counts) (Z.of_nat (List.length counts)))
    as [x [avg [Ex [Ed Ei]]]]; [lia | lia |].
  exists avg. unfold average, Py.format_d_float.
  rewrite Ex. cbn [bind]. split; [exact Ed|].
  rewrite Ei. cbn [bind ret]. now rewrite Z.quot_div_nonneg by lia.
Qed.

Lemma most_common_example (iteritems : list (Z * nat) -> list (Z * nat)) :
  (forall c, Permutation (iteritems c) c) ->
  most_common iteritems [0; 2; 2; 1] = inr 2.
Proof.
  intros Hperm. unfold most_common.
  change (Py.Counter [0; 2; 2; 1]) with [(0, 1%nat); (2, 2%nat); (1, 1%nat)].
  specialize (Hperm [(0, 1%nat); (2, 2%nat); (1, 1%nat)]).
  destruct (iteritems _) as [|item items].
  - now apply Permutation_nil in Hperm.
  - cbn [Py.most_common_1 Py.getitem nth_error bind ret].
    rewrite (max_by_count_unique (2, 2%nat)); [reflexivity| |].
    + apply (Permutation_in _ (Permutation_sym Hperm)). right. now left.
    + intros y Hy Ne. apply (Permutation_in _ Hperm) in Hy.
      destruct Hy as [<-|[<-|[<-|[]]]]; simpl; try lia. congruence.
Qed.

Lemma report_succeeds (iteritems : list (Z * nat) -> list (Z * nat))
  (fs : files) (cat_fn num_fn out : string) (w : effects)
  (iterator : list (result Z)) (counts : list Z) (avg : spec_float)
  (mode : Z) (mean : string) :
  find_inconsistencies fs cat_fn num_fn = inr iterator ->
  Py.tuple iterator = inr counts ->
  average counts = inr avg ->
  most_common iteritems counts = inr mode ->
  Py.format_d_float avg = inr mean ->
  report_inconsistencies iteritems fs cat_fn num_fn out w
  = (writerows out (List.map (fun x => [Py.str x]) counts)
       (print ("Most common # of inconsistencies: " ++ Py.str mode)%string
          (print ("Average # of inconsistencies: " ++ mean)%string w)),
     inr tt).
Proof.
  intros Hf Ht Ha Hm Hd. unfold report_inconsistencies.
  rewrite Hf. cbn [bind]. rewrite Ht. cbn [bind]. rewrite Ha. cbn [bind].
  rewrite Hm. cbn [bind]. rewrite Hd. reflexivity.
Qed.

Lemma int_of_float_truncates (x : spec_float) (k : Z) :
  Py.int_of_float x = inr k -> truncation_of x k.
Proof.
  unfold Py.int_of_float, truncation_of, ret, raise.
  destruct x as [s|s| |s m e]; try discriminate.
  - now intros [= <-].
  - intros [= <-].
    assert (Pm : 0 < Zpos m) by lia.
    destruct e as [|p|p].
    + exists (Zpos m). rewrite Z.shiftl_0_r. split; [reflexivity|].
      change (Z.max 0 (- 0)) with 0. change (Z.max 0 0) with 0.
      rewrite Z.pow_0_r. lia.
    + exists (Zpos m * 2 ^ Zpos p).
      rewrite Z.shiftl_mul_pow2 by lia. split; [reflexivity|].
      assert (0 < 2 ^ Zpos p) by (apply Z.pow_pos_nonneg; lia).
      replace (Z.max 0 (- Zpos p)) with 0 by lia.
      replace (Z.max 0 (Zpos p)) with (Zpos p) by lia.
      rewrite Z.pow_0_r. nia.
    + exists (Zpos m / 2 ^ Zpos p).
      rewrite Z.shiftr_div_pow2 by lia. split; [reflexivity|].
      assert (P : 0 < 2 ^ Zpos p) by (apply Z.pow_pos_nonneg; lia).
      replace (Z.max 0 (- Zneg p)) with (Zpos p) by lia.
      replace (Z.max 0 (Zneg p)) with 0 by lia.
      rewrite Z.pow_0_r.
      pose proof (Z.mul_div_le (Zpos m) (2 ^ Zpos p) P).
      pose proof (Z.mul_succ_div_gt (Zpos m) (2 ^ Zpos p) P).
      split; [apply Z.div_pos; lia | nia].
Qed.

(** C5: a run whose counts are [0, 2, 2, 1] prints the mean as 1 (the
    float 1.25 with its fraction cut off, not rounded) and the most common
    count as 2; and in general the mean that a run prints is the truncation
    of (sum of counts) / (number of counts): of the float that the division
    gives, which for a sum and a number of counts below 2^53 is the
    truncation of the exact quotient. *)
Theorem report_prints_truncated_mean
  (iteritems : list (Z * nat) -> list (Z * nat)) (fs : files)
  (cat_fn num_fn out : string) (w : effects)
  (iterator : list (result Z)) (counts : list Z) :
  (forall c, Permutation (iteritems c) c) ->
  find_inconsistencies fs cat_fn num_fn = inr iterator ->
  Py.tuple iterator = inr counts ->
  counts <> [] ->
  (forall (avg : spec_float) (k : Z),
      average counts = inr avg -> Py.int_of_float avg = inr k ->
      truncation_of avg k /\
      exists mode : Z,
        report_inconsistencies iteritems fs cat_fn num_fn out w
        = (writerows out (List.map (fun x => [Py.str x]) counts)
             (print ("Most common # of inconsistencies: "
                     ++ Py.str mode)%string
                (print ("Average # of inconsistencies: " ++ Py.str k)%string
                   w)),
           inr tt)) /\
  (Py.sum counts < 2 ^ 53 -> Z.of_nat (List.length counts) < 2 ^ 53 ->
   exists mode : Z,
     report_inconsistencies iteritems fs cat_fn num_fn out w
     = (writerows out (List.map (fun x => [Py.str x]) counts)
          (print ("Most common # of inconsistencies: " ++ Py.str mode)%string
             (print ("Average # of inconsistencies: "
                     ++ Py.str (Z.quot (Py.sum counts)
                                  (Z.of_nat (List.length counts))))%string
                w)),
        inr tt)) /\
  (counts = [0; 2; 2; 1] ->
   stdout (fst (report_inconsistencies iteritems fs cat_fn num_fn out w))
   = stdout w ++ ["Average # of inconsistencies: 1";
                  "Most common # of inconsistencies: 2"]).
Proof.
  intros Hperm Hf Ht Hc.
  assert (H0 : 0 <= Py.sum counts).
  { apply fold_add_nonneg; [lia|].
    apply (tuple_nonneg iterator); [|exact Ht].
    now apply (find_inconsistencies_scores fs cat_fn num_fn). }
  destruct (most_common_returns iteritems counts Hperm Hc) as [mode Em].
  split; [|split].
  - intros avg k Ea Ek. split; [now apply int_of_float_truncates|].
    exists mode.
    apply (report_succeeds _ _ _ _ _ _ _ _ _ _ _ Hf Ht Ea Em).
    unfold Py.format_d_float. now rewrite Ek.
  - intros Hs Hn.
    destruct (average_truncates counts Hc) as [avg [Ea Ed]];
      [lia | exact Hn|].
    exists mode.
    exact (report_succeeds _ _ _ _ _ _ _ _ _ _ _ Hf Ht Ea Em Ed).
  - intros ->.
    destruct (average_truncates [0; 2; 2; 1]) as [avg [Ea Ed]];
      [discriminate | vm_compute; split; [discriminate | reflexivity]
      | vm_compute; reflexivity |].
    rewrite (report_succeeds _ _ _ _ _ _ _ _ _ _ _ Hf Ht Ea
               (most_common_example iteritems Hperm) Ed).
    cbn [fst stdout writerows print]. now rewrite <- app_assoc.
Qed.

Lemma report_prints_truncated_mean_witness :
  (truncation_of (S754_finite false 5629499534213120 (-52)) 1 /\
   exists mode : Z,
     report_inconsistencies (fun items => items) example_files
       "cat.csv" "num.csv" "out.csv" no_effects
     = (writerows "out.csv" (List.map (fun x => [Py.str x]) [0; 2; 2; 1])
          (print ("Most common # of inconsistencies: " ++ Py.str mode)%string
             (print ("Average # of inconsistencies: " ++ Py.str 1)%string
                no_effects)),
        inr tt)) /\
  (exists mode : Z,
     report_inconsistencies (fun items => items) example_files
       "cat.csv" "num.csv" "out.csv" no_effects
     = (writerows "out.csv" (List.map (fun x => [Py.str x]) [0; 2; 2; 1])
          (print ("Most common # of inconsistencies: " ++ Py.str mode)%string
             (print ("Average # of inconsistencies: "
                     ++ Py.str (Z.quot (Py.sum [0; 2; 2; 1])
                                  (Z.of_nat (List.length [0; 2; 2; 1]))))%string
                no_effects)),
        inr tt)) /\
  stdout (fst (report_inconsistencies (fun items => items) example_files
                 "cat.csv" "num.csv" "out.csv" no_effects))
  = stdout no_effects ++ ["Average # of inconsistencies: 1";
                          "Most common # of inconsistencies: 2"].
Proof.
  destruct (report_prints_truncated_mean (fun items => items) example_files
              "cat.csv" "num.csv" "out.csv" no_effects
              [inr 0; inr 2; inr 2; inr 1] [0; 2; 2; 1])
    as [General [Exact Example]].
  - intros c. apply Permutation_refl.
  - reflexivity.
  - reflexivity.
  - discriminate.
  - split; [|split].
    + apply (General (S754_finite false 5629499534213120 (-52)) 1);
        reflexivity.
    + apply Exact; vm_compute; reflexivity.
    + apply Example. reflexivity.
Defined.

(** * Further properties of the code *)

(** ** [pairwise] and [signum] *)

(** X1: [pairwise] pairs every item but the last with its successor: the
    first components are the list without its last item, the second
    components the list without its first one, and the i-th pair holds items
    i and i+1. *)
Theorem pairwise_neighbours {A : Type} (l : list A) :
  List.map fst (pairwise l) = removelast l /\
  List.map snd (pairwise l) = tl l /\
  forall (i : nat) (d : A),
    (S i < List.length l)%nat ->
    nth_error (pairwise l) i = Some (nth i l d, nth (S i) l d).
Proof.
  induction l as [|x l IH]; [repeat split; intros i d H; simpl in H; lia|].
  destruct l as [|y l].
  - repeat split. intros i d H. simpl in H. lia.
  - destruct IH as [F [S N]]. rewrite pairwise_cons. split; [|split].
    + cbn [List.map fst]. rewrite F. reflexivity.
    + cbn [List.map snd]. rewrite S. reflexivity.
    + intros [|i] d H; [reflexivity|].
      cbn [nth_error]. rewrite (N i d) by (simpl in *; lia). reflexivity.
Qed.

Lemma pairwise_neighbours_witness :
  List.map fst (pairwise [1; 2; 3]) = removelast [1; 2; 3] /\
  List.map snd (pairwise [1; 2; 3]) = tl [1; 2; 3] /\
  nth_error (pairwise [1; 2; 3]) 1 = Some (2, 3).
Proof.
  destruct (pairwise_neighbours [1; 2; 3]) as [F [S N]].
  split; [exact F|]. split; [exact S|].
  apply (N 1%nat 0). simpl. lia.
Defined.

(** [signum] is the sign function: -1, 0 or 1, with
    [signum x * |x| = x]. *)
Lemma signum_sign (x : Z) :
  signum x = Z.sgn x /\ signum x * Z.abs x = x.
Proof.
  unfold signum.
  destruct (0 <? x) eqn:P; [apply Z.ltb_lt in P | apply Z.ltb_ge in P].
  - rewrite Z.sgn_pos by lia. lia.
  - destruct (x <? 0) eqn:N; [apply Z.ltb_lt in N | apply Z.ltb_ge in N].
    + rewrite Z.sgn_neg by lia. lia.
    + assert (x = 0) as -> by lia. split; reflexivity.
Qed.

(** ** Rows that [score_subject] does not accept, and rows it accepts
    although they do not match *)


Lemma map_int_first_bad (good rest : list string) (bad : string)
  (ints : list Z) :
  Py.map Py.int good = inr ints -> (exists e, Py.int bad = inl e) ->
  Py.map Py.int (good ++ bad :: rest) = inl (ValueError bad).
Proof.
  intros G [e B]. revert ints G.
  induction good as [|f good IH]; intros ints; simpl.
  - intros _. rewrite B. cbn [bind]. now rewrite (int_raises bad e B).
  - destruct (Py.int f) as [e'|n]; cbn [bind]; [discriminate|].
    destruct (Py.map Py.int good) as [e'|ns]; cbn [bind ret]; [discriminate|].
    intros _. now rewrite (IH ns eq_refl).
Qed.

(** X2: a field that is no integer makes [score_subject] raise
    [ValueError] with that field.  The categorical row is converted first:
    its first bad field is reported whatever the numerical row holds; the
    first bad field of the numerical row is reported when the categorical
    row converts, whatever the lengths of the two rows. *)
Theorem score_subject_reports_first_bad_field
  (good rest : list string) (bad : string) (ints : list Z) :
  Py.map Py.int good = inr ints ->
  (exists e, Py.int bad = inl e) ->
  (forall num_row : list string,
      score_subject (good ++ bad :: rest) num_row = inl (ValueError bad)) /\
  (forall (cat_row : list string) (cat : list Z),
      Py.map Py.int cat_row = inr cat ->
      score_subject cat_row (good ++ bad :: rest) = inl (ValueError bad)).
Proof.
  intros G B. split.
  - intros num_row. unfold score_subject.
    now rewrite (map_int_first_bad good rest bad ints G B).
  - intros cat_row cat C. unfold score_subject. rewrite C. cbn [bind].
    now rewrite (map_int_first_bad good rest bad ints G B).
Qed.

Lemma score_subject_reports_first_bad_field_witness :
  (forall num_row : list string,
      score_subject (["1"; "2"] ++ "2.5" :: ["x"]) num_row
      = inl (ValueError "2.5")) /\
  (forall (cat_row : list string) (cat : list Z),
      Py.map Py.int cat_row = inr cat ->
      score_subject cat_row (["1"; "2"] ++ "2.5" :: ["x"])
      = inl (ValueError "2.5")).
Proof.
  apply (score_subject_reports_first_bad_field ["1"; "2"] ["x"] "2.5" [1; 2]).
  - reflexivity.
  - eexists. reflexivity.
Defined.

Lemma reduce_score_in_range (cat : list Z)
  (pairs : list ((nat * Z) * (nat * Z))) (init count : Z) :
  Py.reduce (fun x y => s <- score cat y ;; ret (x + s)) pairs init
  = inr count ->
  Forall (fun p => (fst (fst p) < List.length cat)%nat /\
                   (fst (snd p) < List.length cat)%nat) pairs.
Proof.
  revert init; induction pairs as [|p pairs IH]; intros init; simpl;
    [constructor|].
  unfold score at 1, Py.getitem.
  destruct (nth_error cat (fst (fst p))) eqn:E1; cbn [bind ret raise];
    [|discriminate].
  destruct (nth_error cat (fst (snd p))) eqn:E2; cbn [bind ret raise];
    [|discriminate].
  intros H. constructor; [|now apply IH in H].
  split; apply nth_error_Some; congruence.
Qed.

Lemma pairwise_covers {A : Type} (l : list A) (x : A) :
  (2 <= List.length l)%nat -> In x l ->
  exists p, In p (pairwise l) /\ (fst p = x \/ snd p = x).
Proof.
  induction l as [|a l IH]; intros L I; [destruct I|].
  destruct l as [|b l]; [simpl in L; lia|].
  rewrite pairwise_cons. destruct I as [<-|I].
  - exists (a, b). split; [now left | now left].
  - destruct l as [|c l].
    + destruct I as [<-|[]]. exists (a, b). split; [now left | now right].
    + destruct (IH ltac:(simpl; lia) I) as [p [Hp Hx]].
      exists p. split; [now right | exact Hx].
Qed.

(** X3: when the rows hold integers, the numerical row has at least two
    of them and the categorical row has fewer than the numerical one,
    [score_subject] raises [IndexError]: every item is in some pair, and the
    item past the end of the categorical row cannot be looked up. *)
Theorem score_subject_short_categorical_row
  (cat_row num_row : list string) (cat num : list Z) :
  Py.map Py.int cat_row = inr cat ->
  Py.map Py.int num_row = inr num ->
  (2 <= List.length num)%nat ->
  (List.length cat < List.length num)%nat ->
  score_subject cat_row num_row = inl IndexError.
Proof.
  intros Hc Hn N2 L. unfold score_subject. rewrite Hc, Hn. cbn [bind].
  change (fun x y : nat * Z => Py.cmp (snd y) (snd x)) with by_descending_value.
  set (rankings := Py.sorted by_descending_value (Py.enumerate num)).
  destruct (Py.reduce _ (pairwise rankings) 0) as [e|count] eqn:R.
  - f_equal. now apply reduce_score_raises in R.
  - exfalso. apply reduce_score_in_range in R.
    assert (P : Permutation (List.map fst rankings)
                  (seq 0 (List.length num)))
      by (apply (ranked_order num)).
    assert (I : In (List.length cat) (List.map fst rankings)).
    { apply (Permutation_in _ (Permutation_sym P)). apply in_seq. lia. }
    apply in_map_iff in I. destruct I as [r [Er Ir]].
    destruct (pairwise_covers rankings r) as [p [Hp Hx]]; [|exact Ir|].
    + apply Permutation_length in P.
      rewrite length_map, length_seq in P. lia.
    + rewrite Forall_forall in R. destruct (R p Hp) as [R1 R2].
      destruct Hx as [<-|<-]; lia.
Qed.

Lemma score_subject_short_categorical_row_witness :
  score_subject ["1"; "2"] ["10"; "30"; "20"] = inl IndexError.
Proof.
  apply (score_subject_short_categorical_row
           ["1"; "2"] ["10"; "30"; "20"] [1; 2] [10; 30; 20]);
    [reflexivity | reflexivity | simpl; lia | simpl; lia].
Defined.

Lemma disagreements_ext (cat cat' : list Z) (order : list nat) :
  Forall (fun i => (i < List.length cat)%nat) order ->
  (forall a b, (a < List.length cat)%nat -> (b < List.length cat)%nat ->
               disagreement cat' (a, b) = disagreement cat (a, b)) ->
  disagreements cat' order = disagreements cat order.
Proof.
  intros F H. unfold disagreements. f_equal.
  induction F as [|a l Ha F IH]; [reflexivity|].
  destruct F as [|b l Hb F]; [reflexivity|].
  rewrite pairwise_cons. cbn [List.map]. rewrite IH. f_equal.
  now apply H.
Qed.

Lemma ranked_in_range (num : list Z) (n : nat) :
  (List.length num <= n)%nat -> Forall (fun i => (i < n)%nat) (ranked num).
Proof.
  intros L. destruct (ranked_order num) as [P _].
  eapply Permutation_Forall; [apply Permutation_sym; exact P|].
  apply Forall_forall. intros i Hi. apply in_seq in Hi. lia.
Qed.



(** ** What the count depends on *)

Lemma nth_map_in_range (f : Z -> Z) (l : list Z) (i : nat) :
  (i < List.length l)%nat -> nth i (List.map f l) 0 = f (nth i l 0).
Proof.
  intros H. rewrite (nth_indep _ 0 (f 0)) by (now rewrite length_map).
  apply map_nth.
Qed.

Lemma increasing_gtb (f : Z -> Z) (x y : Z) :
  (forall x y, x < y -> f x < f y) -> (f x >? f y) = (x >? y).
Proof.
  intros M. rewrite !Z.gtb_ltb.
  destruct (Z.lt_trichotomy y x) as [H|[->|H]].
  - pose proof (M _ _ H). transitivity true; [|symmetry]; apply Z.ltb_lt; lia.
  - now rewrite !Z.ltb_irrefl.
  - pose proof (M _ _ H). transitivity false; [|symmetry]; apply Z.ltb_ge; lia.
Qed.

Lemma ranked_increasing (f : Z -> Z) (num : list Z) :
  (forall x y, x < y -> f x < f y) ->
  ranked (List.map f num) = ranked num.
Proof.
  intros M. symmetry. apply order_unique.
  destruct (ranked_order num) as [P S]. split.
  - now rewrite length_map.
  - rewrite <- (map_id (ranked num)).
    apply StronglySorted_map
      with (R := before num) (P := fun i => (i < List.length num)%nat);
      [|now apply ranked_in_range | exact S].
    intros a b Ha Hb. unfold before.
    rewrite !nth_map_in_range by assumption.
    intros [H|[E H]].
    + left. apply Z.lt_gt, M. lia.
    + right. split; [now rewrite E | exact H].
Qed.

(** X5: the count depends on the order of the values only, not on the
    values: replacing the numerical values, or the categorical ones, by their
    images under a strictly increasing function (a shift, a positive
    scaling) leaves it as it is. *)
Theorem score_subject_depends_on_order_only
  (f g : Z -> Z) (cat_row num_row cat_row' num_row' : list string)
  (cat num : list Z) :
  (forall x y, x < y -> f x < f y) ->
  (forall x y, x < y -> g x < g y) ->
  Py.map Py.int cat_row = inr cat ->
  Py.map Py.int num_row = inr num ->
  Py.map Py.int cat_row' = inr (List.map g cat) ->
  Py.map Py.int num_row' = inr (List.map f num) ->
  List.length cat = List.length num ->
  score_subject cat_row' num_row' = score_subject cat_row num_row.
Proof.
  intros Mf Mg Hc Hn Hc' Hn' L.
  rewrite (score_subject_ranked _ _ _ _ Hc' Hn')
    by (rewrite !length_map; lia).
  rewrite (score_subject_ranked _ _ _ _ Hc Hn) by lia.
  rewrite (ranked_increasing f num Mf). f_equal.
  apply disagreements_ext; [apply ranked_in_range; lia|].
  intros a b Ha Hb. unfold disagreement; simpl.
  rewrite !nth_map_in_range by assumption.
  now rewrite (increasing_gtb g _ _ Mg).
Qed.

Lemma score_subject_depends_on_order_only_witness :
  score_subject ["6"; "2"; "4"] ["-50"; "150"; "50"]
  = score_subject ["3"; "1"; "2"] ["10"; "30"; "20"].
Proof.
  apply (score_subject_depends_on_order_only
           (fun x => 10 * x - 150) (fun x => 2 * x)
           ["3"; "1"; "2"] ["10"; "30"; "20"]
           ["6"; "2"; "4"] ["-50"; "150"; "50"]
           [3; 1; 2] [10; 30; 20]);
    try reflexivity; intros x y H; lia.
Defined.

Lemma pairwise_in {A : Type} (l : list A) (p : A * A) :
  In p (pairwise l) -> In (fst p) l /\ In (snd p) l.
Proof.
  destruct p as [a b]. unfold pairwise. intros H. split.
  - now apply in_combine_l in H.
  - apply in_combine_r in H. destruct l; [destruct H | now right].
Qed.

Lemma sum_bounds (cat : list Z) (pairs : list (nat * nat)) :
  0 <= fold_right Z.add 0 (List.map (disagreement cat) pairs)
  <= Z.of_nat (List.length pairs).
Proof.
  induction pairs as [|p l IH]; cbn [List.map fold_right List.length]; [lia|].
  assert (0 <= disagreement cat p <= 1)
    by (unfold disagreement; destruct (_ >? _); lia).
  lia.
Qed.

Lemma disagreements_extreme (cat : list Z) (order : list nat) (k : Z) :
  k = 0 \/ k = 1 ->
  disagreements cat order = k * Z.of_nat (List.length order - 1) ->
  Forall (fun p => disagreement cat p = k) (pairwise order).
Proof.
  rewrite <- pairwise_length. unfold disagreements. intros K.
  induction (pairwise order) as [|p l IH];
    cbn [List.map fold_right List.length]; [constructor|].
  intros H. pose proof (sum_bounds cat l) as B.
  assert (D : 0 <= disagreement cat p <= 1)
    by (unfold disagreement; destruct (_ >? _); lia).
  constructor; [lia|]. apply IH. lia.
Qed.

Lemma pairs_sorted {A : Type} (R : A -> A -> Prop) (l : list A) :
  (forall x y z, R x y -> R y z -> R x z) ->
  Forall (fun p => R (fst p) (snd p)) (pairwise l) ->
  StronglySorted R l.
Proof.
  intros T. induction l as [|a l IH]; intros F; [constructor|].
  destruct l as [|b l]; [repeat constructor|].
  rewrite pairwise_cons in F. inversion F as [|? ? Hab F']; subst.
  specialize (IH F'). constructor; [exact IH|].
  constructor; [exact Hab|].
  apply StronglySorted_inv in IH. destruct IH as [_ Fb].
  eapply Forall_impl; [|exact Fb]. intros c. now apply T.
Qed.

Lemma sorted_related {A : Type} (R : A -> A -> Prop) (l : list A) (a b : A) :
  StronglySorted R l -> In a l -> In b l -> a = b \/ R a b \/ R b a.
Proof.
  induction 1 as [|x l S IH F]; intros Ia Ib; [destruct Ia|].
  rewrite Forall_forall in F.
  destruct Ia as [<-|Ia], Ib as [<-|Ib]; auto.
Qed.

(** The items along the ranking, when every consecutive pair satisfies a
    transitive relation [Q]: so does every pair of items that the numerical
    row orders. *)
Lemma ranked_pairs (cat num : list Z) (Q : nat -> nat -> Prop) :
  (forall x y z, Q x y -> Q y z -> Q x z) ->
  Forall (fun p => Q (fst p) (snd p)) (pairwise (ranked num)) ->
  forall a b, (a < List.length num)%nat -> (b < List.length num)%nat ->
              before num a b -> Q a b.
Proof.
  intros T F a b Ha Hb Hab.
  destruct (ranked_order num) as [P S].
  assert (SQ : StronglySorted (fun x y => before num x y /\ Q x y)
                 (ranked num)).
  { apply pairs_sorted.
    - intros x y z [B1 Q1] [B2 Q2]. split; [eapply before_trans|]; eauto.
    - pose proof (pairwise_sorted _ _ S) as FB.
      rewrite Forall_forall in *. intros p Hp. split; auto. }
  assert (Ia : In a (ranked num))
    by (apply (Permutation_in _ (Permutation_sym P)), in_seq; lia).
  assert (Ib : In b (ranked num))
    by (apply (Permutation_in _ (Permutation_sym P)), in_seq; lia).
  destruct (sorted_related _ _ a b SQ Ia Ib) as [->|[[_ H]|[H _]]].
  - now apply before_irrefl in Hab.
  - exact H.
  - exfalso. apply (before_irrefl num a). eapply before_trans; eauto.
Qed.

(** X6: the count is 0 exactly when the two rows are consistent on every
    pair of items, adjacent in the ranking or not: whenever the numerical
    row puts item a before item b (a larger value, or the same value and an
    earlier position), the categorical value of a is not above that of b. *)
Theorem score_subject_zero_iff_consistent
  (cat_row num_row : list string) (cat num : list Z) :
  Py.map Py.int cat_row = inr cat ->
  Py.map Py.int num_row = inr num ->
  List.length cat = List.length num ->
  score_subject cat_row num_row = inr 0 <->
  forall a b : nat,
    (a < List.length num)%nat -> (b < List.length num)%nat ->
    before num a b -> nth a cat 0 <= nth b cat 0.
Proof.
  intros Hc Hn L. rewrite (score_subject_ranked _ _ _ _ Hc Hn) by lia.
  split.
  - intros [= H].
    apply (ranked_pairs cat num (fun a b => nth a cat 0 <= nth b cat 0));
      [intros x y z; lia|].
    eapply Forall_impl; [|apply (disagreements_extreme cat _ 0); [now left|lia]].
    intros [a b]. unfold disagreement; simpl.
    destruct (nth a cat 0 >? nth b cat 0) eqn:E; [discriminate|].
    intros _. rewrite Z.gtb_ltb in E. apply Z.ltb_ge in E. exact E.
  - intros H. rewrite (disagreements_constant cat _ 0); [f_equal; lia|].
    destruct (ranked_order num) as [P S].
    pose proof (pairwise_sorted _ _ S) as FB.
    rewrite Forall_forall in *. intros [a b] Hp.
    destruct (pairwise_in _ _ Hp) as [Ia Ib]. simpl in Ia, Ib.
    apply (Permutation_in _ P), in_seq in Ia.
    apply (Permutation_in _ P), in_seq in Ib.
    specialize (H a b ltac:(lia) ltac:(lia) (FB _ Hp)).
    unfold disagreement; simpl.
    replace (nth a cat 0 >? nth b cat 0) with false; [reflexivity|].
    symmetry. rewrite Z.gtb_ltb. apply Z.ltb_ge. exact H.
Qed.

Lemma score_subject_zero_iff_consistent_witness :
  score_subject ["1"; "1"; "3"] ["30"; "30"; "10"] = inr 0 <->
  forall a b : nat,
    (a < List.length [30; 30; 10])%nat -> (b < List.length [30; 30; 10])%nat ->
    before [30; 30; 10] a b -> nth a [1; 1; 3] 0 <= nth b [1; 1; 3] 0.
Proof.
  apply (score_subject_zero_iff_consistent
           ["1"; "1"; "3"] ["30"; "30"; "10"] [1; 1; 3] [30; 30; 10]);
    reflexivity.
Defined.

(** X7: for N >= 1 the count is N-1 exactly when the two rows disagree on
    every pair of items: whenever the numerical row puts item a before item
    b, the categorical value of a is above that of b. *)
Theorem score_subject_maximal_iff_reversed
  (cat_row num_row : list string) (cat num : list Z) :
  Py.map Py.int cat_row = inr cat ->
  Py.map Py.int num_row = inr num ->
  List.length cat = List.length num ->
  (1 <= List.length num)%nat ->
  score_subject cat_row num_row = inr (Z.of_nat (List.length num) - 1) <->
  forall a b : nat,
    (a < List.length num)%nat -> (b < List.length num)%nat ->
    before num a b -> nth a cat 0 > nth b cat 0.
Proof.
  intros Hc Hn L N1. rewrite (score_subject_ranked _ _ _ _ Hc Hn) by lia.
  pose proof (ranked_length num) as RL.
  split.
  - intros [= H].
    apply (ranked_pairs cat num (fun a b => nth a cat 0 > nth b cat 0));
      [intros x y z; lia|].
    eapply Forall_impl;
      [|apply (disagreements_extreme cat _ 1); [now right | rewrite RL; lia]].
    intros [a b]. unfold disagreement; simpl.
    destruct (nth a cat 0 >? nth b cat 0) eqn:E; [|discriminate].
    intros _. rewrite Z.gtb_ltb in E. apply Z.ltb_lt in E. lia.
  - intros H. rewrite (disagreements_constant cat _ 1);
      [f_equal; rewrite RL; lia|].
    destruct (ranked_order num) as [P S].
    pose proof (pairwise_sorted _ _ S) as FB.
    rewrite Forall_forall in *. intros [a b] Hp.
    destruct (pairwise_in _ _ Hp) as [Ia Ib]. simpl in Ia, Ib.
    apply (Permutation_in _ P), in_seq in Ia.
    apply (Permutation_in _ P), in_seq in Ib.
    specialize (H a b ltac:(lia) ltac:(lia) (FB _ Hp)).
    unfold disagreement; simpl.
    replace (nth a cat 0 >? nth b cat 0) with true; [reflexivity|].
    symmetry. rewrite Z.gtb_ltb. apply Z.ltb_lt. lia.
Qed.

Lemma score_subject_maximal_iff_reversed_witness :
  score_subject ["1"; "2"; "3"] ["10"; "20"; "30"]
  = inr (Z.of_nat (List.length [10; 20; 30]) - 1) <->
  forall a b : nat,
    (a < List.length [10; 20; 30])%nat -> (b < List.length [10; 20; 30])%nat ->
    before [10; 20; 30] a b -> nth a [1; 2; 3] 0 > nth b [1; 2; 3] 0.
Proof.
  apply (score_subject_maximal_iff_reversed
           ["1"; "2"; "3"] ["10"; "20"; "30"] [1; 2; 3] [10; 20; 30]);
    [reflexivity | reflexivity | reflexivity | simpl; lia].
Defined.

Lemma disagreements_add (cat cat' : list Z) (order : list nat) :
  Forall (fun p => disagreement cat p + disagreement cat' p = 1)
    (pairwise order) ->
  disagreements cat order + disagreements cat' order
  = Z.of_nat (List.length order - 1).
Proof.
  rewrite <- pairwise_length. unfold disagreements.
  induction 1 as [|p l Hp F IH]; [reflexivity|].
  cbn [List.map fold_right List.length]. lia.
Qed.

(** X8: when the categorical values are all different, reversing the
    categorical precedence (every value replaced by its opposite) turns a
    count c into N-1-c: every consecutive pair of the ranking counts in
    exactly one of the two. *)
Theorem score_subject_reversed_precedence
  (cat_row cat_row' num_row : list string) (cat num : list Z) :
  Py.map Py.int cat_row = inr cat ->
  Py.map Py.int cat_row' = inr (List.map Z.opp cat) ->
  Py.map Py.int num_row = inr num ->
  List.length cat = List.length num ->
  (1 <= List.length num)%nat ->
  NoDup cat ->
  exists count : Z,
    score_subject cat_row num_row = inr count /\
    score_subject cat_row' num_row
    = inr (Z.of_nat (List.length num) - 1 - count).
Proof.
  intros Hc Hc' Hn L N1 D.
  exists (disagreements cat (ranked num)).
  rewrite (score_subject_ranked _ _ _ _ Hc Hn) by lia.
  rewrite (score_subject_ranked _ _ _ _ Hc' Hn) by (rewrite length_map; lia).
  split; [reflexivity|]. f_equal.
  enough (disagreements cat (ranked num)
          + disagreements (List.map Z.opp cat) (ranked num)
          = Z.of_nat (List.length num - 1)) by lia.
  rewrite <- (ranked_length num). apply disagreements_add.
  destruct (ranked_order num) as [P S].
  pose proof (pairwise_sorted _ _ S) as FB.
  rewrite Forall_forall in *. intros [a b] Hp.
  destruct (pairwise_in _ _ Hp) as [Ia Ib]. simpl in Ia, Ib.
  apply (Permutation_in _ P), in_seq in Ia.
  apply (Permutation_in _ P), in_seq in Ib.
  assert (Ne : a <> b)
    by (intros ->; apply (before_irrefl num b), (FB _ Hp)).
  assert (Nc : nth a cat 0 <> nth b cat 0).
  { intros E. apply Ne. apply (proj1 (NoDup_nth cat 0) D); [lia | lia | exact E]. }
  unfold disagreement; simpl.
  rewrite !nth_map_in_range by lia. rewrite !Z.gtb_ltb.
  destruct (nth b cat 0 <? nth a cat 0) eqn:E1;
    destruct (- nth b cat 0 <? - nth a cat 0) eqn:E2;
    try reflexivity;
    [apply Z.ltb_lt in E1; apply Z.ltb_lt in E2
    |apply Z.ltb_ge in E1; apply Z.ltb_ge in E2]; lia.
Qed.

Lemma score_subject_reversed_precedence_witness :
  exists count : Z,
    score_subject ["2"; "1"; "3"; "5"] ["10"; "20"; "30"; "30"] = inr count /\
    score_subject ["-2"; "-1"; "-3"; "-5"] ["10"; "20"; "30"; "30"]
    = inr (Z.of_nat (List.length [10; 20; 30; 30]) - 1 - count).
Proof.
  apply (score_subject_reversed_precedence
           ["2"; "1"; "3"; "5"] ["-2"; "-1"; "-3"; "-5"]
           ["10"; "20"; "30"; "30"] [2; 1; 3; 5] [10; 20; 30; 30]);
    try reflexivity; [simpl; lia|].
  repeat (constructor; [simpl; intuition discriminate|]). constructor.
Defined.

(** ** Files that are missing, empty or broken *)

(** X10: both files are opened before anything is read.  A missing
    categorical file ends the run with [IOError] on its name; a missing
    numerical file ends it with [IOError] on its name whatever the
    categorical file holds, records that do not parse included.  Nothing is
    printed or written. *)
Theorem missing_file_raises_ioerror
  (iteritems : list (Z * nat) -> list (Z * nat)) (fs : files)
  (prog cat_fn num_fn : string) (rest : list string) :
  (fs cat_fn = None ->
   main iteritems fs (prog :: cat_fn :: num_fn :: rest)
   = (no_effects, inl (IOError cat_fn))) /\
  (forall records : list record,
      fs cat_fn = Some records -> fs num_fn = None ->
      main iteritems fs (prog :: cat_fn :: num_fn :: rest)
      = (no_effects, inl (IOError num_fn))).
Proof.
  destruct (main_reports iteritems fs prog cat_fn num_fn rest) as [out ->].
  split.
  - intros H. apply report_raises. unfold find_inconsistencies, open.
    now rewrite H.
  - intros records Hc Hn. apply report_raises.
    unfold find_inconsistencies, open. now rewrite Hc, Hn.
Qed.

Lemma missing_file_raises_ioerror_witness :
  main (fun items => items) malformed_cat_files
    ["find_inconsistencies.py"; "nowhere.csv"; "num.csv"]
  = (no_effects, inl (IOError "nowhere.csv")) /\
  main (fun items => items) malformed_cat_files
    ["find_inconsistencies.py"; "cat.csv"; "nowhere.csv"]
  = (no_effects, inl (IOError "nowhere.csv")).
Proof.
  split.
  - apply (proj1 (missing_file_raises_ioerror (fun items => items)
                    malformed_cat_files "find_inconsistencies.py"
                    "nowhere.csv" "num.csv" [])).
    reflexivity.
  - apply (proj2 (missing_file_raises_ioerror (fun items => items)
                    malformed_cat_files "find_inconsistencies.py"
                    "cat.csv" "nowhere.csv" [])
             [Row ["1"; "2"] 1; Malformed "line contains NULL byte" 1;
              Row ["2"; "1"] 1]);
      reflexivity.
Defined.

Lemma zip_malformed_num (cat_before num_before : list (list string * nat))
  (cat_row : list string) (cat_lines : nat) (msg : string) (lines : nat)
  (cat_after num_after : list record) (line : nat) :
  List.length num_before = List.length cat_before ->
  zip (rows_reader cat_before ++ Row cat_row cat_lines :: cat_after) line
    (rows_reader num_before ++ Malformed msg lines :: num_after)
  = inl (CsvError msg, (line + lines_of cat_before + cat_lines)%nat).
Proof.
  revert num_before line.
  induction cat_before as [|c cat_before IH]; intros num_before line L.
  - destruct num_before; [|discriminate]. simpl. f_equal. f_equal. lia.
  - destruct num_before as [|n num_before]; [discriminate|]. simpl.
    rewrite IH by (simpl in L; lia). f_equal. f_equal. lia.
Qed.

(** X11: a record of the numerical file that does not parse is reported
    under the name of the categorical file and with the line number of the
    categorical reader, which has just read the row of the same subject;
    neither the name of the numerical file nor its line number is in the
    message. *)
Theorem malformed_numerical_record_blames_categorical_file
  (iteritems : list (Z * nat) -> list (Z * nat)) (fs : files)
  (prog cat_fn num_fn : string) (rest : list string)
  (cat_before num_before : list (list string * nat))
  (cat_row : list string) (cat_lines : nat) (msg : string) (lines : nat)
  (cat_after num_after : list record) :
  fs cat_fn
  = Some (rows_reader cat_before ++ Row cat_row cat_lines :: cat_after) ->
  fs num_fn
  = Some (rows_reader num_before ++ Malformed msg lines :: num_after) ->
  List.length num_before = List.length cat_before ->
  main iteritems fs (prog :: cat_fn :: num_fn :: rest)
  = (no_effects,
     inl (SystemExit
            ("file " ++ cat_fn ++ ", line "
             ++ Py.str (Z.of_nat (lines_of cat_before + cat_lines)) ++ ": "
             ++ msg)%string)).
Proof.
  intros Hc Hn L.
  destruct (main_reports iteritems fs prog cat_fn num_fn rest) as [out ->].
  apply report_raises. unfold find_inconsistencies, open.
  rewrite Hc, Hn. cbn [bind ret].
  now rewrite (zip_malformed_num _ _ _ _ _ _ _ _ _ L).
Qed.

Lemma malformed_numerical_record_blames_categorical_file_witness :
  main (fun items => items) malformed_num_files
    ["find_inconsistencies.py"; "cat.csv"; "num.csv"]
  = (no_effects,
     inl (SystemExit
            ("file " ++ "cat.csv" ++ ", line "
             ++ Py.str (Z.of_nat (lines_of [] + 1)) ++ ": "
             ++ "line contains NULL byte")%string)).
Proof.
  apply (malformed_numerical_record_blames_categorical_file
           (fun items => items) malformed_num_files
           "find_inconsistencies.py" "cat.csv" "num.csv" [] [] []
           ["1"; "2"] 1%nat "line contains NULL byte" 1%nat
           [Row ["1"; "2"] 1] [Row ["10"; "20"] 1]);
    reflexivity.
Defined.

Lemma zip_past_the_end (cat_rows num_before : list (list string * nat))
  (num_after : list record) (line : nat) :
  List.length num_before = List.length cat_rows ->
  zip (rows_reader cat_rows) line (rows_reader num_before ++ num_after)
  = inr (combine (List.map fst cat_rows) (List.map fst num_before)).
Proof.
  revert num_before line.
  induction cat_rows as [|c cat_rows IH]; intros num_before line L.
  - reflexivity.
  - destruct num_before as [|n num_before]; [discriminate|]. simpl.
    rewrite IH by (simpl in L; lia). reflexivity.
Qed.

(** X12: the numerical file is read no further than the categorical file
    has rows.  Whatever follows there, rows or records that do not parse, is
    never seen: the counts are those of the rows before, and no error is
    raised. *)
Theorem numerical_file_read_no_further
  (fs : files) (cat_fn num_fn : string)
  (cat_rows num_before : list (list string * nat))
  (num_after : list record) :
  fs cat_fn = Some (rows_reader cat_rows) ->
  fs num_fn = Some (rows_reader num_before ++ num_after) ->
  List.length num_before = List.length cat_rows ->
  find_inconsistencies fs cat_fn num_fn
  = inr (List.map (fun rows => score_subject (fst rows) (snd rows))
           (combine (List.map fst cat_rows) (List.map fst num_before))).
Proof.
  intros Hc Hn L. unfold find_inconsistencies, open. rewrite Hc, Hn.
  cbn [bind ret]. now rewrite (zip_past_the_end _ _ _ _ L).
Qed.

Lemma numerical_file_read_no_further_witness :
  find_inconsistencies
    (fun filename =>
       if String.eqb filename "cat.csv" then Some [Row ["1"; "2"] 1]
       else Some [Row ["10"; "20"] 1; Malformed "line contains NULL byte" 1])
    "cat.csv" "num.csv"
  = inr (List.map (fun rows => score_subject (fst rows) (snd rows))
           (combine (List.map fst [(["1"; "2"], 1%nat)])
              (List.map fst [(["10"; "20"], 1%nat)]))).
Proof.
  apply (numerical_file_read_no_further
           (fun filename =>
              if String.eqb filename "cat.csv" then Some [Row ["1"; "2"] 1]
              else Some [Row ["10"; "20"] 1;
                         Malformed "line contains NULL byte" 1])
           "cat.csv" "num.csv" [(["1"; "2"], 1%nat)] [(["10"; "20"], 1%nat)]
           [Malformed "line contains NULL byte" 1]);
    reflexivity.
Defined.

(** X13: with no subject to score the run ends with [ZeroDivisionError],
    having printed and written nothing: so it is when the categorical file
    has no record, whatever the numerical file holds, and when the numerical
    file has no record and the categorical file starts with a row. *)
Theorem no_subject_raises_zero_division
  (iteritems : list (Z * nat) -> list (Z * nat)) (fs : files)
  (prog cat_fn num_fn : string) (rest : list string) :
  (forall num_records : list record,
      fs cat_fn = Some [] -> fs num_fn = Some num_records ->
      main iteritems fs (prog :: cat_fn :: num_fn :: rest)
      = (no_effects, inl ZeroDivisionError)) /\
  (forall (cat_row : list string) (lines : nat) (cat_after : list record),
      fs cat_fn = Some (Row cat_row lines :: cat_after) ->
      fs num_fn = Some [] ->
      main iteritems fs (prog :: cat_fn :: num_fn :: rest)
      = (no_effects, inl ZeroDivisionError)).
Proof.
  destruct (main_reports iteritems fs prog cat_fn num_fn rest) as [out ->].
  split.
  - intros num_records Hc Hn. unfold report_inconsistencies,
      find_inconsistencies, open. rewrite Hc, Hn. reflexivity.
  - intros cat_row lines cat_after Hc Hn. unfold report_inconsistencies,
      find_inconsistencies, open. rewrite Hc, Hn. reflexivity.
Qed.

Lemma no_subject_raises_zero_division_witness :
  main (fun items => items) empty_files
    ["find_inconsistencies.py"; "cat.csv"; "num.csv"]
  = (no_effects, inl ZeroDivisionError) /\
  main (fun items => items)
    (fun filename =>
       if String.eqb filename "cat.csv" then Some [Row ["1"; "2"] 1]
       else Some [])
    ["find_inconsistencies.py"; "cat.csv"; "num.csv"]
  = (no_effects, inl ZeroDivisionError).
Proof.
  split.
  - apply (proj1 (no_subject_raises_zero_division (fun items => items)
                    empty_files "find_inconsistencies.py" "cat.csv"
                    "num.csv" []) []); reflexivity.
  - apply (proj2 (no_subject_raises_zero_division (fun items => items)
                    (fun filename =>
                       if String.eqb filename "cat.csv"
                       then Some [Row ["1"; "2"] 1] else Some [])
                    "find_inconsistencies.py" "cat.csv" "num.csv" [])
             ["1"; "2"] 1%nat []); reflexivity.
Defined.

(** ** The most common count *)

Lemma count_up_new (x : Z) (c : list (Z * nat)) :
  ~ In x (List.map fst c) -> Py.count_up x c = c ++ [(x, 1%nat)].
Proof.
  induction c as [|[y j] c IH]; simpl; intros H; [reflexivity|].
  destruct (x =? y) eqn:E.
  - apply Z.eqb_eq in E. exfalso. apply H. now left.
  - rewrite IH; [reflexivity|]. intros I. apply H. now right.
Qed.

Lemma count_up_old (x : Z) (c : list (Z * nat)) (k : nat) :
  NoDup (List.map fst c) -> In (x, k) c ->
  List.map fst (Py.count_up x c) = List.map fst c /\
  forall v n, In (v, n) (Py.count_up x c) <->
              (v <> x /\ In (v, n) c) \/ (v = x /\ n = S k).
Proof.
  induction c as [|[y j] c IH]; simpl; intros D I; [destruct I|].
  inversion D as [|? ? Ny Dc]; subst.
  destruct (x =? y) eqn:E.
  - apply Z.eqb_eq in E. subst y.
    assert (j = k) as ->.
    { destruct I as [[= ->]|I]; [reflexivity|].
      exfalso. apply Ny. apply (in_map fst) in I. exact I. }
    split; [reflexivity|]. intros v n. simpl. split.
    + intros [[= <- <-]|H]; [now right|].
      left. split; [|now right].
      intros ->. apply Ny. apply (in_map fst) in H. exact H.
    + intros [[Ne [[= -> ->]|H]]|[-> ->]]; [congruence | now right | now left].
  - apply Z.eqb_neq in E.
    destruct I as [[= -> ->]|I]; [congruence|].
    destruct (IH Dc I) as [K S]. split; [simpl; now rewrite K|].
    intros v n. simpl. rewrite S. split.
    + intros [[= <- <-]|[[Ne H]|[-> ->]]].
      * left. split; [congruence | now left].
      * left. split; [exact Ne | now right].
      * now right.
    + intros [[Ne [[= <- <-]|H]]|[-> ->]].
      * now left.
      * right. left. now split.
      * right. now right.
Qed.

(** What [Counter] holds after the items [seen]: one entry for every
    item, with the number of its occurrences. *)
Lemma count_up_counts (x : Z) (c : list (Z * nat)) (seen : list Z) :
  (NoDup (List.map fst c) /\
   forall v n, In (v, n) c <->
               In v seen /\ n = count_occ Z.eq_dec seen v) ->
  NoDup (List.map fst (Py.count_up x c)) /\
  forall v n, In (v, n) (Py.count_up x c) <->
              In v (x :: seen) /\ n = count_occ Z.eq_dec (x :: seen) v.
Proof.
  intros [D S].
  destruct (in_dec Z.eq_dec x seen) as [I|I].
  - assert (Ix : In (x, count_occ Z.eq_dec seen x) c) by (apply S; now split).
    destruct (count_up_old x c _ D Ix) as [K T].
    split; [now rewrite K|]. intros v n. rewrite T, S. simpl.
    destruct (Z.eq_dec x v) as [->|Ne]; split.
    + intros [[Ne _]|[_ ->]]; [congruence|]. split; [now left | reflexivity].
    + intros [_ ->]. now right.
    + intros [[_ [Hv ->]]|[-> _]]; [|congruence]. split; [now right | reflexivity].
    + intros [[E|Hv] ->]; [congruence|]. left. split; [congruence | now split].
  - assert (Nk : ~ In x (List.map fst c)).
    { intros H. apply in_map_iff in H. destruct H as [[y j] [E H]].
      simpl in E. subst y. apply S in H. now apply I. }
    rewrite (count_up_new x c Nk). split.
    + rewrite map_app. simpl.
      apply NoDup_rev in D. rewrite <- (rev_involutive (_ ++ [x])).
      apply NoDup_rev. rewrite rev_app_distr. simpl.
      constructor; [|exact D]. now rewrite <- in_rev.
    + intros v n. rewrite in_app_iff, S. simpl.
      destruct (Z.eq_dec x v) as [->|Ne]; split.
      * intros [[Hv _]|[[= <-]|[]]]; [contradiction|].
        split; [now left|].
        now rewrite (proj1 (count_occ_not_In Z.eq_dec seen v) I).
      * intros [_ ->]. right. left.
        now rewrite (proj1 (count_occ_not_In Z.eq_dec seen v) I).
      * intros [[Hv ->]|[[= E _]|[]]]; [|congruence].
        split; [now right | reflexivity].
      * intros [[E|Hv] ->]; [congruence|]. left. now split.
Qed.

Lemma fold_count_up (l seen : list Z) (c : list (Z * nat)) :
  (NoDup (List.map fst c) /\
   forall v n, In (v, n) c <->
               In v seen /\ n = count_occ Z.eq_dec seen v) ->
  forall v n, In (v, n) (fold_left (fun c x => Py.count_up x c) l c) <->
              In v (rev l ++ seen) /\
              n = count_occ Z.eq_dec (rev l ++ seen) v.
Proof.
  revert seen c. induction l as [|x l IH]; intros seen c H; [apply H|].
  simpl fold_left. intros v n.
  rewrite (IH (x :: seen) _ (count_up_counts x c seen H)).
  simpl rev. now rewrite <- app_assoc.
Qed.

Lemma Counter_counts (l : list Z) (v : Z) (n : nat) :
  In (v, n) (Py.Counter l) <-> In v l /\ n = count_occ Z.eq_dec l v.
Proof.
  unfold Py.Counter. rewrite (fold_count_up l [] []).
  - rewrite app_nil_r, <- in_rev.
    now rewrite count_occ_rev.
  - split; [constructor|]. intros w m. simpl. tauto.
Qed.

Lemma max_by_count_greatest (best : Z * nat) (items : list (Z * nat)) :
  In (Py.max_by_count best items) (best :: items) /\
  forall y, In y (best :: items) ->
            (snd y <= snd (Py.max_by_count best items))%nat.
Proof.
  revert best. induction items as [|item items IH]; intros best.
  - simpl. split; [now left|]. intros y [<-|[]]. lia.
  - cbn [Py.max_by_count].
    destruct (IH (if (snd best <? snd item)%nat then item else best))
      as [I G].
    split.
    + destruct I as [E|I]; [|right; now right].
      rewrite <- E.
      destruct (snd best <? snd item)%nat; [right; now left | now left].
    + intros y Hy.
      destruct (snd best <? snd item)%nat eqn:C;
        [apply Nat.ltb_lt in C | apply Nat.ltb_ge in C].
      * destruct Hy as [<-|[<-|Hy]].
        -- specialize (G item (or_introl eq_refl)). lia.
        -- apply G. now left.
        -- apply G. now right.
      * destruct Hy as [<-|[<-|Hy]].
        -- apply G. now left.
        -- specialize (G best (or_introl eq_refl)). lia.
        -- apply G. now right.
Qed.

(** X14: whatever the order in which the dictionary of counts yields its
    items, the "most common" count that is printed is one of the counts and
    none of the counts occurs more often. *)
Theorem most_common_is_a_mode
  (iteritems : list (Z * nat) -> list (Z * nat)) (counts : list Z) :
  (forall c, Permutation (iteritems c) c) ->
  counts <> [] ->
  exists mode : Z,
    most_common iteritems counts = inr mode /\
    In mode counts /\
    forall v : Z,
      (count_occ Z.eq_dec counts v <= count_occ Z.eq_dec counts mode)%nat.
Proof.
  intros Hperm Hc. unfold most_common.
  pose proof (Hperm (Py.Counter counts)) as P.
  destruct (iteritems (Py.Counter counts)) as [|item items].
  - exfalso. apply (Counter_not_nil counts Hc).
    now apply Permutation_nil in P.
  - cbn [Py.most_common_1 Py.getitem nth_error bind ret].
    destruct (max_by_count_greatest item items) as [I G].
    destruct (Py.max_by_count item items) as [mode n] eqn:E.
    exists mode. split; [reflexivity|].
    apply (Permutation_in _ P), Counter_counts in I. destruct I as [Im ->].
    split; [exact Im|]. intros v.
    destruct (in_dec Z.eq_dec v counts) as [Iv|Nv].
    + assert (Hv : In (v, count_occ Z.eq_dec counts v) (item :: items)).
      { apply (Permutation_in _ (Permutation_sym P)), Counter_counts.
        now split. }
      apply (G _ Hv).
    + rewrite (proj1 (count_occ_not_In Z.eq_dec counts v) Nv). lia.
Qed.

Lemma most_common_is_a_mode_witness :
  exists mode : Z,
    most_common (@rev (Z * nat)) [3; 1; 3; 1; 0] = inr mode /\
    In mode [3; 1; 3; 1; 0] /\
    forall v : Z,
      (count_occ Z.eq_dec [3; 1; 3; 1; 0]%Z v
       <= count_occ Z.eq_dec [3; 1; 3; 1; 0]%Z mode)%nat.
Proof.
  apply (most_common_is_a_mode (@rev (Z * nat)) [3; 1; 3; 1; 0]).
  - intros c. apply Permutation_sym, Permutation_rev.
  - discriminate.
Defined.

(** ** The command line and a whole run *)


Lemma main_reports_to (iteritems : list (Z * nat) -> list (Z * nat))
  (fs : files) (prog cat_fn num_fn : string) (rest : list string) :
  main iteritems fs (prog :: cat_fn :: num_fn :: rest)
  = report_inconsistencies iteritems fs cat_fn num_fn
      (match rest with [out] => out | _ => DEFAULT_FILENAME end) no_effects.
Proof. destruct rest as [|out [|extra more]]; reflexivity. Qed.

Lemma map_int_length (row : list string) (ints : list Z) :
  Py.map Py.int row = inr ints -> List.length ints = List.length row.
Proof.
  revert ints. induction row as [|f row IH]; intros ints; simpl.
  - now intros [= <-].
  - destruct (Py.int f) as [e|n]; cbn [bind]; [discriminate|].
    destruct (Py.map Py.int row) as [e|ns]; cbn [bind ret]; [discriminate|].
    intros [= <-]. simpl. now rewrite (IH ns).
Qed.

Lemma fold_add_from (l : list Z) (acc : Z) :
  fold_left Z.add l acc = acc + fold_left Z.add l 0.
Proof.
  revert acc. induction l as [|y l IH]; intros acc; simpl; [lia|].
  rewrite (IH (acc + y)), (IH y). lia.
Qed.

Lemma sum_cons (x : Z) (l : list Z) : Py.sum (x :: l) = x + Py.sum l.
Proof. unfold Py.sum. cbn [fold_left]. now rewrite fold_add_from. Qed.

Lemma tuple_scores (pairs : list (list string * list string)) :
  (forall cat_row num_row,
      In (cat_row, num_row) pairs -> integer_rows cat_row num_row) ->
  exists counts : list Z,
    Py.tuple (List.map (fun rows => score_subject (fst rows) (snd rows)) pairs)
    = inr counts /\
    List.length counts = List.length pairs /\
    0 <= Py.sum counts
    <= Z.of_nat (list_sum (List.map (fun p => List.length (snd p)) pairs)).
Proof.
  unfold Py.tuple.
  induction pairs as [|[c n] pairs IH]; intros W.
  - exists []. repeat split; simpl; try reflexivity; unfold Py.sum; simpl; lia.
  - destruct IH as [counts [E [L B]]];
      [intros cr nr H; apply W; now right|].
    destruct (W c n (or_introl eq_refl)) as [cat [num [Pc [Pn Len]]]].
    destruct (score_subject_bounds _ _ _ _ Pc Pn Len) as [count [S R]].
    exists (count :: counts). cbn [List.map fst snd Py.map bind].
    rewrite S, E. cbn [bind ret]. split; [reflexivity|].
    split; [simpl; now rewrite L|].
    rewrite sum_cons. cbn [list_sum fold_right List.map snd].
    fold (list_sum (List.map (fun p => List.length (snd p)) pairs)).
    rewrite <- (map_int_length _ _ Pn). lia.
Qed.

Lemma combine_fields (cat_rows num_rows : list (list string * nat)) :
  (list_sum (List.map (fun p => List.length (snd p))
               (combine (List.map fst cat_rows) (List.map fst num_rows)))
   <= fields_total num_rows)%nat.
Proof.
  unfold fields_total. revert num_rows.
  induction cat_rows as [|c cat_rows IH]; intros num_rows; simpl; [lia|].
  destruct num_rows as [|n num_rows]; simpl; [lia|].
  specialize (IH num_rows). lia.
Qed.

(** X16: a whole run on files that are in order.  When every record of
    the two files is a row, the rows that are paired hold integers, as many
    in the one as in the other, there is at least one pair, and the files
    are of a size that a float counts exactly (fewer than 2^53 pairs and
    numerical fields), the script prints the two statistics, writes one row
    for each pair of rows, in their order, each holding the count of the
    pair, and ends with status 0. *)
Theorem run_on_files_in_order
  (iteritems : list (Z * nat) -> list (Z * nat)) (fs : files)
  (prog cat_fn num_fn : string) (rest : list string)
  (cat_rows num_rows : list (list string * nat)) :
  (forall c, Permutation (iteritems c) c) ->
  fs cat_fn = Some (rows_reader cat_rows) ->
  fs num_fn = Some (rows_reader num_rows) ->
  (forall cat_row num_row,
      In (cat_row, num_row)
        (combine (List.map fst cat_rows) (List.map fst num_rows)) ->
      integer_rows cat_row num_row) ->
  (1 <= Nat.min (List.length cat_rows) (List.length num_rows))%nat ->
  Z.of_nat (Nat.min (List.length cat_rows) (List.length num_rows)) < 2 ^ 53 ->
  Z.of_nat (fields_total num_rows) < 2 ^ 53 ->
  exists (counts : list Z) (mode : Z),
    List.map inr counts
    = List.map (fun rows => score_subject (fst rows) (snd rows))
        (combine (List.map fst cat_rows) (List.map fst num_rows)) /\
    List.length counts
    = Nat.min (List.length cat_rows) (List.length num_rows) /\
    main iteritems fs (prog :: cat_fn :: num_fn :: rest)
    = ({| stdout :=
            [("Average # of inconsistencies: "
              ++ Py.str (Z.quot (Py.sum counts)
                           (Z.of_nat (List.length counts))))%string;
             ("Most common # of inconsistencies: " ++ Py.str mode)%string];
          written :=
            [(match rest with [out] => out | _ => "inconsistencies.csv" end,
              List.map (fun x => [Py.str x]) counts)] |},
       inr tt) /\
    exit_status (terminate (snd (main iteritems fs
                                   (prog :: cat_fn :: num_fn :: rest)))) = 0.
Proof.
  intros Hperm Hc Hn W M1 Mb Fb.
  set (pairs := combine (List.map fst cat_rows) (List.map fst num_rows)) in *.
  destruct (tuple_scores pairs W) as [counts [T [L B]]].
  assert (Lp : List.length pairs
               = Nat.min (List.length cat_rows) (List.length num_rows))
    by (unfold pairs; now rewrite length_combine, !length_map).
  pose proof (combine_fields cat_rows num_rows) as CF. fold pairs in CF.
  assert (Ne : counts <> []) by (destruct counts; [simpl in L; lia | discriminate]).
  destruct (average_truncates counts Ne) as [avg [Ea Ed]]; [lia | lia |].
  destruct (most_common_returns iteritems counts Hperm Ne) as [mode Em].
  exists counts, mode.
  assert (Run : main iteritems fs (prog :: cat_fn :: num_fn :: rest)
                = ({| stdout :=
                        [("Average # of inconsistencies: "
                          ++ Py.str (Z.quot (Py.sum counts)
                                       (Z.of_nat (List.length counts))))%string;
                         ("Most common # of inconsistencies: "
                          ++ Py.str mode)%string];
                      written :=
                        [(match rest with
                          | [out] => out
                          | _ => "inconsistencies.csv"
                          end,
                          List.map (fun x => [Py.str x]) counts)] |},
                   inr tt)).
  { rewrite main_reports_to.
    rewrite (report_succeeds _ _ _ _ _ _ _ _ _ _ _
               (find_inconsistencies_rows _ _ _ _ _ Hc Hn) T Ea Em Ed).
    reflexivity. }
  split; [|split; [lia | split; [exact Run | now rewrite Run]]].
  clear - T. unfold Py.tuple in T. revert counts T.
  induction (List.map (fun rows => score_subject (fst rows) (snd rows)) pairs)
    as [|item l IH]; intros counts; simpl.
  - now intros [= <-].
  - destruct item as [e|a]; cbn [bind]; [discriminate|].
    destruct (Py.map (fun item => item) l) as [e|items]; cbn [bind ret];
      [discriminate|].
    intros [= <-]. simpl. now rewrite (IH items).
Qed.

Lemma run_on_files_in_order_witness :
  exists (counts : list Z) (mode : Z),
    List.map inr counts
    = List.map (fun rows => score_subject (fst rows) (snd rows))
        (combine
           (List.map fst [(["3"; "2"; "1"], 1%nat); (["1"; "2"; "3"], 1%nat)])
           (List.map fst [(["10"; "20"; "30"], 1%nat);
                          (["10"; "20"; "30"], 1%nat);
                          (["7"], 2%nat)])) /\
    List.length counts = Nat.min 2 3 /\
    main (fun items => items)
      (fun filename =>
         if String.eqb filename "cat.csv"
         then Some [Row ["3"; "2"; "1"] 1; Row ["1"; "2"; "3"] 1]
         else Some [Row ["10"; "20"; "30"] 1; Row ["10"; "20"; "30"] 1;
                    Row ["7"] 2])
      ("find_inconsistencies.py" :: "cat.csv" :: "num.csv" :: ["out.csv"])
    = ({| stdout :=
            [("Average # of inconsistencies: "
              ++ Py.str (Z.quot (Py.sum counts)
                           (Z.of_nat (List.length counts))))%string;
             ("Most common # of inconsistencies: " ++ Py.str mode)%string];
          written :=
            [("out.csv", List.map (fun x => [Py.str x]) counts)] |},
       inr tt) /\
    exit_status
      (terminate
         (snd (main (fun items => items)
                 (fun filename =>
                    if String.eqb filename "cat.csv"
                    then Some [Row ["3"; "2"; "1"] 1; Row ["1"; "2"; "3"] 1]
                    else Some [Row ["10"; "20"; "30"] 1;
                               Row ["10"; "20"; "30"] 1; Row ["7"] 2])
                 ("find_inconsistencies.py" :: "cat.csv" :: "num.csv"
                  :: ["out.csv"])))) = 0.
Proof.
  apply (run_on_files_in_order (fun items => items)
           (fun filename =>
              if String.eqb filename "cat.csv"
              then Some [Row ["3"; "2"; "1"] 1; Row ["1"; "2"; "3"] 1]
              else Some [Row ["10"; "20"; "30"] 1; Row ["10"; "20"; "30"] 1;
                         Row ["7"] 2])
           "find_inconsistencies.py" "cat.csv" "num.csv" ["out.csv"]
           [(["3"; "2"; "1"], 1%nat); (["1"; "2"; "3"], 1%nat)]
           [(["10"; "20"; "30"], 1%nat); (["10"; "20"; "30"], 1%nat);
            (["7"], 2%nat)]).
  - intros c. apply Permutation_refl.
  - reflexivity.
  - reflexivity.
  - intros cat_row num_row [[= <- <-]|[[= <- <-]|[]]].
    + exists [3; 2; 1], [10; 20; 30]. repeat split.
    + exists [1; 2; 3], [10; 20; 30]. repeat split.
  - simpl. lia.
  - vm_compute. reflexivity.
  - vm_compute. reflexivity.
Defined.

(** ** What is written can be read *)

Lemma digits_uint_acc (d : Decimal.uint) (acc : positive) (count : nat) :
  Py.digits (list_ascii_of_string (NilEmpty.string_of_uint d)) (Zpos acc) count
  = (Zpos (Pos.of_uint_acc d acc), (Decimal.nb_digits d + count)%nat, []).
Proof.
  revert acc count.
  induction d as [|d IH|d IH|d IH|d IH|d IH|d IH|d IH|d IH|d IH|d IH];
    intros acc count; [reflexivity|..];
    cbn [NilEmpty.string_of_uint list_ascii_of_string Py.digits];
    match goal with
    | |- context [Py.digit ?c] =>
        let v := eval vm_compute in (Py.digit c) in
        change (Py.digit c) with v
    end;
    cbv iota; cbn [Pos.of_uint_acc];
    match goal with
    | |- Py.digits _ ?a _ = (Zpos (Pos.of_uint_acc _ ?b), _, _) =>
        replace a with (Zpos b) by lia
    end;
    rewrite IH; cbn [Decimal.nb_digits];
    f_equal; f_equal; lia.
Qed.

Lemma digits_uint (d : Decimal.uint) (count : nat) :
  Py.digits (list_ascii_of_string (NilEmpty.string_of_uint d)) 0 count
  = (Z.of_N (Pos.of_uint d), (Decimal.nb_digits d + count)%nat, []).
Proof.
  revert count.
  induction d as [|d IH|d IH|d IH|d IH|d IH|d IH|d IH|d IH|d IH|d IH];
    intros count; [reflexivity|..];
    cbn [NilEmpty.string_of_uint list_ascii_of_string Py.digits];
    match goal with
    | |- context [Py.digit ?c] =>
        let v := eval vm_compute in (Py.digit c) in
        change (Py.digit c) with v
    end;
    cbv iota;
    [ change (10 * 0 + 0) with 0; rewrite IH;
      cbn [Decimal.nb_digits Pos.of_uint]; f_equal; f_equal; lia
    | match goal with
      | |- Py.digits _ ?a _ = _ =>
          let p := eval vm_compute in a in change a with p
      end;
      rewrite digits_uint_acc; cbn [Decimal.nb_digits Pos.of_uint Z.of_N];
      f_equal; f_equal; lia .. ].
Qed.

Lemma int_of_uint_string (d : Decimal.uint) :
  d <> Decimal.Nil ->
  Py.int (NilEmpty.string_of_uint d) = inr (Z.of_N (Pos.of_uint d)) /\
  Py.int (String "-" (NilEmpty.string_of_uint d))
  = inr (- Z.of_N (Pos.of_uint d)).
Proof.
  intros Hd. pose proof (digits_uint d 0) as H.
  destruct d as [|d|d|d|d|d|d|d|d|d|d]; [congruence|..];
    match goal with
    | |- Py.int (NilEmpty.string_of_uint ?u) = _ /\ _ =>
        split;
        [ change (Py.int (NilEmpty.string_of_uint u))
            with (let '(value, count, rest) :=
                    Py.digits
                      (list_ascii_of_string (NilEmpty.string_of_uint u)) 0 0 in
                  match count, Py.lstrip rest with
                  | S _, [] => ret value
                  | _, _ => raise (ValueError (NilEmpty.string_of_uint u))
                  end)
        | change (Py.int (String "-" (NilEmpty.string_of_uint u)))
            with (let '(value, count, rest) :=
                    Py.digits
                      (list_ascii_of_string (NilEmpty.string_of_uint u)) 0 0 in
                  match count, Py.lstrip rest with
                  | S _, [] => ret (- value)
                  | _, _ =>
                      raise (ValueError
                               (String "-" (NilEmpty.string_of_uint u)))
                  end) ];
        rewrite H; reflexivity
    end.
Qed.

(** X17: the decimal text that the script writes for an integer is text
    that its own reading accepts, and reading gives the integer back:
    [int(str(n)) = n] for every integer, so [map(int, row)] on a row of
    written integers gives these integers. *)
Theorem int_of_str (n : Z) (ints : list Z) :
  Py.int (Py.str n) = inr n /\
  Py.map Py.int (List.map Py.str ints) = inr ints.
Proof.
  assert (R : forall n, Py.int (Py.str n) = inr n).
  { assert (S : forall d, d <> Decimal.Nil ->
                  NilZero.string_of_uint d = NilEmpty.string_of_uint d)
      by (intros d Hd; destruct d; [congruence | reflexivity ..]).
    intros [|p|p]; [reflexivity|..]; unfold Py.str;
      cbn [Z.to_int NilZero.string_of_int];
      pose proof (Unsigned.to_uint_nonnil p) as Hd;
      destruct (int_of_uint_string (Pos.to_uint p) Hd) as [P N];
      rewrite (S _ Hd), ?P, ?N, Unsigned.of_to; reflexivity. }
  split; [apply R|].
  induction ints as [|x ints IH]; [reflexivity|].
  cbn [List.map Py.map]. rewrite R, IH. reflexivity.
Qed.

(** ** The order of the columns *)

Lemma values_of_seq (num cat : list Z) :
  List.length cat = List.length num ->
  List.map (fun i => (nth i num 0, nth i cat 0)) (seq 0 (List.length num))
  = combine num cat.
Proof.
  revert cat. induction num as [|x num IH]; intros cat L; [reflexivity|].
  destruct cat as [|y cat]; [discriminate|].
  cbn [List.length seq List.map combine nth]. f_equal.
  rewrite <- seq_shift, map_map. apply IH. simpl in L. lia.
Qed.

Lemma fst_combine (num cat : list Z) :
  List.length cat = List.length num ->
  List.map fst (combine num cat) = num.
Proof.
  revert cat. induction num as [|x num IH]; intros cat L; [reflexivity|].
  destruct cat as [|y cat]; [discriminate|].
  simpl. f_equal. apply IH. simpl in L. lia.
Qed.

Lemma ranked_values (cat num : list Z) :
  List.length cat = List.length num -> NoDup num ->
  Permutation
    (List.map (fun i => (nth i num 0, nth i cat 0)) (ranked num))
    (combine num cat) /\
  StronglySorted (fun x y : Z * Z => fst x > fst y)
    (List.map (fun i => (nth i num 0, nth i cat 0)) (ranked num)).
Proof.
  intros L D. destruct (ranked_order num) as [P S]. split.
  - rewrite <- (values_of_seq num cat L). now apply Permutation_map.
  - apply StronglySorted_map
      with (R := before num) (P := fun i => (i < List.length num)%nat);
      [|now apply ranked_in_range | exact S].
    intros a b Ha Hb [H|[E H]]; [exact H|].
    exfalso. apply (proj1 (NoDup_nth num 0) D) in E; lia.
Qed.

Lemma disagreements_values (cat cat' : list Z) (order order' : list nat) :
  List.map (fun i => nth i cat 0) order
  = List.map (fun i => nth i cat' 0) order' ->
  disagreements cat order = disagreements cat' order'.
Proof.
  unfold disagreements. revert order'.
  induction order as [|a order IH]; intros [|a' order'] E;
    try discriminate; [reflexivity|].
  destruct order as [|b order], order' as [|b' order']; try discriminate;
    [reflexivity|].
  rewrite !pairwise_cons. cbn [List.map fold_right].
  injection E as Ea Eb Et.
  rewrite (IH (b' :: order')) by (cbn [List.map]; congruence).
  unfold disagreement; simpl. now rewrite Ea, Eb.
Qed.

(** X9: when the numerical values of a subject are all different, the
    count does not depend on the order of the columns: two pairs of rows
    that hold the same (numerical, categorical) pairs of values, in any
    order, get the same count. *)
Theorem score_subject_column_order
  (cat_row num_row cat_row' num_row' : list string)
  (cat num cat' num' : list Z) :
  Py.map Py.int cat_row = inr cat ->
  Py.map Py.int num_row = inr num ->
  Py.map Py.int cat_row' = inr cat' ->
  Py.map Py.int num_row' = inr num' ->
  List.length cat = List.length num ->
  List.length cat' = List.length num' ->
  NoDup num ->
  Permutation (combine num cat) (combine num' cat') ->
  score_subject cat_row num_row = score_subject cat_row' num_row'.
Proof.
  intros Hc Hn Hc' Hn' L L' D P.
  assert (D' : NoDup num').
  { apply (Permutation_NoDup (l := num)); [|exact D].
    rewrite <- (fst_combine num cat L), <- (fst_combine num' cat' L').
    now apply Permutation_map. }
  rewrite (score_subject_ranked _ _ _ _ Hc Hn) by lia.
  rewrite (score_subject_ranked _ _ _ _ Hc' Hn') by lia.
  f_equal. apply disagreements_values.
  destruct (ranked_values cat num L D) as [P1 S1].
  destruct (ranked_values cat' num' L' D') as [P2 S2].
  assert (E : List.map (fun i => (nth i num 0, nth i cat 0)) (ranked num)
              = List.map (fun i => (nth i num' 0, nth i cat' 0))
                  (ranked num')).
  { apply (sorted_unique (fun x y : Z * Z => fst x > fst y)).
    - intros x. lia.
    - intros x y z. lia.
    - exact S1.
    - exact S2.
    - apply perm_trans with (combine num cat); [exact P1|].
      apply perm_trans with (combine num' cat'); [exact P|].
      now apply Permutation_sym. }
  apply (f_equal (List.map snd)) in E. now rewrite !map_map in E.
Qed.

Lemma score_subject_column_order_witness :
  score_subject ["2"; "3"; "1"] ["10"; "30"; "20"]
  = score_subject ["3"; "1"; "2"] ["30"; "20"; "10"].
Proof.
  apply (score_subject_column_order
           ["2"; "3"; "1"] ["10"; "30"; "20"]
           ["3"; "1"; "2"] ["30"; "20"; "10"]
           [2; 3; 1] [10; 30; 20] [3; 1; 2] [30; 20; 10]);
    try reflexivity.
  - repeat (constructor; [simpl; intuition discriminate|]). constructor.
  - simpl. apply perm_trans with [(30, 3); (10, 2); (20, 1)].
    + apply perm_swap.
    + apply perm_skip, perm_swap.
Defined.

(** With tied numerical values the order of the columns does matter. *)
Example tied_columns_swapped :
  score_subject ["1"; "2"] ["5"; "5"] = inr 0 /\
  score_subject ["2"; "1"] ["5"; "5"] = inr 1.
Proof. split; reflexivity. Qed.
